(** * GiveWayBot: startup orchestration, shutdown latch, logging helper

    A shallow embedding of [src/main.ts], [src/bot/helpers/logging.ts] and
    [src/bot/features/start.ts].

    The program is a sequence of calls into collaborators that live outside
    these three files (the bot framework, the HTTP server, the logger, the
    Node process object).  Each such call is recorded as an [event] in a
    trace, and what the collaborator answers (a value, a thrown error, or
    nothing at all) is read from an environment [Env].  What this code
    leaves to the runtime (a rejected promise nobody handles, a signal
    nobody listens to) is recorded in the process.  JavaScript objects are
    finite maps from property names to values. *)

From Stdlib Require Import String Ascii NArith ZArith List Lia DecimalString.
From stdpp Require Import base option list strings gmap.

(** ** JavaScript values and objects *)

#[warnings="-register-all"]
Inductive jsval :=
| JNull
| JBool (b : bool)
| JNum (n : Z)
| JStr (s : string)
| JArr (l : list jsval)
| JObj (o : gmap string jsval).

(** The one-character string holding a double quote. *)
Definition dquote : string := String (ascii_of_nat 34) EmptyString.

(** [String(n)] for a non-negative integer [n]: its decimal digits. *)
Definition string_of_N (n : N) : string := NilZero.string_of_uint (N.to_uint n).

(** [a || b] on an optional string: [undefined] and the empty string are
    falsy. *)
Definition js_or (a : option string) (b : string) : string :=
  match a with
  | Some (String c s) => String c s
  | Some EmptyString => b
  | None => b
  end.

(** ** Errors and results of calls *)

Definition error := string.

(** What a call gives the code that made it: a value (it returns, its
    promise resolves), an error (it throws, its promise rejects), or
    nothing.  [Never] is the wait that does not end for this code: the
    promise stays pending, or the process ends while the code waits. *)
Inductive result (A : Type) :=
| Ok (a : A)
| Throw (e : error)
| Never.
Arguments Ok {A} a.
Arguments Throw {A} e.
Arguments Never {A}.

(** ** Collaborators *)

Inductive signal := SIGINT | SIGTERM.

#[global] Instance signal_eq_dec : EqDecision signal.
Proof. solve_decision. Defined.

(** Handles on objects built outside this code. *)
Definition bot := nat.
Definition server := nat.
Definition handle := nat.

(** [config] of [#root/config.js], read once at startup. *)
Record Config := {
  BOT_TOKEN : string;
  BOT_MODE : string;
  BOT_ALLOWED_UPDATES : list string;
  BOT_SERVER_HOST : string;
  BOT_SERVER_PORT : N;
  BOT_WEBHOOK : string;
  BOT_WEBHOOK_SECRET : string
}.

(** [AddressInfo] of [node:net]. *)
Record AddressInfo := {
  address : string;
  family : string;
  port : N
}.

(** The calls that leave this code, in the order they are issued. *)
Inductive event :=
| EvCreateBot (token : string)
| EvCreateServer (b : bot)
| EvProcessOn (s : signal) (listener : nat)
| EvBotInit (b : bot)
| EvBotStart (b : bot) (allowed_updates : list string)
| EvBotStop (b : bot)
| EvServe (fetch : server) (hostname : string) (port : N)
| EvServerClose (h : handle)
| EvSetWebhook (b : bot) (url : string) (allowed_updates : list string)
               (secret_token : string)
| EvLoggerInfo (arg : jsval)
| EvLoggerError (e : error)
| EvProcessExit (code : Z)
| EvReply (text : string).

(** The places where the main flow is suspended on a promise while the
    shutdown handler is registered. *)
Inductive await_point :=
| AwBotInit
| AwStartServer
| AwSetWebhook.

(** What the collaborators answer, as this code observes it: each call
    returns, throws, or never answers.  [bot.start] in particular stays
    pending for as long as the bot polls.

    [serve] throws, or returns a handle.  When the bind succeeds the
    server calls the listening callback with the bound address: this is
    [Ok (h, info)].  When the bind fails the server emits an [error]
    event instead; the callback is never called, and since the promise of
    [startServer] is built with [resolve] only it never settles: this is
    [Never], and [serve_handle] is the handle [serve] had returned.

    While [bot.start] is pending the framework may call [onStart] and
    signals may arrive, in any order; at the other suspension points only
    signals arrive.

    The runtime ends the process when it is left an unhandled rejection
    or a signal without listener.  From then on this code observes
    nothing: in such a run the call the main flow waits for answers
    [Never], and nothing more is pending. *)
Record Env := {
  createBot_returns : string -> result bot;
  createServer_returns : bot -> result server;
  init_returns : bot -> result unit;
  start_pending : bot -> list (signal + string);
  start_returns : bot -> list string -> result unit;
  stop_returns : bot -> result unit;
  serve_returns : server -> string -> N -> result (handle * AddressInfo);
  serve_handle : server -> string -> N -> handle;
  setWebhook_returns : bot -> string -> list string -> string -> result unit;
  reply_returns : string -> result unit;
  pending_signals : await_point -> list signal
}.

(** ** State *)

(** [serverHandle] is the variable of [startWebhook] shared by
    [startServer] and [stopServer]. *)
Record World := {
  serverHandle : option handle;
  trace : list event
}.

Class Monad (m : Type -> Type) := {
  ret : forall {A}, A -> m A;
  bind : forall {A B}, m A -> (A -> m B) -> m B
}.

Declare Scope monad_scope.
Delimit Scope monad_scope with monad.
Notation "x <- c1 ;; c2" := (bind c1 (fun x => c2))
  (at level 100, c1 at next level, right associativity) : monad_scope.
Notation "c1 ;; c2" := (bind c1 (fun _ => c2))
  (at level 100, right associativity) : monad_scope.
Open Scope monad_scope.

(** Code that sees the world but not the process's listener table: the
    cleanup closures and the middlewares. *)
Definition M (A : Type) : Type := World -> result A * World.

#[global] Instance M_monad : Monad M := {|
  ret := fun A a w => (Ok a, w);
  bind := fun A B c k w =>
    match c w with
    | (Ok a, w') => k a w'
    | (Throw e, w') => (Throw e, w')
    | (Never, w') => (Never, w')
    end
|}.

(** The closure [handleShutdown] built by one call of [onShutdown]: its
    captured variable [isShuttingDown] and its captured [cleanUp]. *)
Record Closure := {
  isShuttingDown : bool;
  cleanUp : M unit
}.

(** What this code leaves to the runtime, and the runtime answers by
    ending the process: the rejection of a promise that nobody handles,
    and a signal for which no listener is registered. *)
Inductive fatal :=
| UnhandledRejection (e : error)
| DefaultAction (s : signal).

(** The Node process: the closures allocated so far, the listener table
    of [process.on], each entry naming a closure, and what has been left
    to the runtime.  The same closure is registered for both signals, so
    its flag is shared. *)
Record Process := {
  closures : list Closure;
  listeners : list (signal * nat);
  world : World;
  fatals : list fatal
}.

Definition P (A : Type) : Type := Process -> result A * Process.

#[global] Instance P_monad : Monad P := {|
  ret := fun A a p => (Ok a, p);
  bind := fun A B c k p =>
    match c p with
    | (Ok a, p') => k a p'
    | (Throw e, p') => (Throw e, p')
    | (Never, p') => (Never, p')
    end
|}.

Definition set_world (p : Process) (w : World) : Process :=
  {| closures := closures p; listeners := listeners p; world := w;
     fatals := fatals p |}.

(** Run world-level code inside the process. *)
Definition liftM {A} (c : M A) : P A := fun p =>
  let '(r, w) := c (world p) in (r, set_world p w).

(** [try { body } catch (error) { handler }]: a body that never comes
    back does not reach the handler. *)
Definition try_catch {A} (body : P A) (handler : error -> P A) : P A := fun p =>
  match body p with
  | (Ok a, p') => (Ok a, p')
  | (Throw e, p') => handler e p'
  | (Never, p') => (Never, p')
  end.

Definition emit (e : event) : M unit := fun w =>
  (Ok tt, {| serverHandle := serverHandle w; trace := trace w ++ [e] |}).

(** Issue a call whose answer comes from the environment. *)
Definition call {A} (e : event) (answer : result A) : M A := fun w =>
  (answer, snd (emit e w)).

Definition initial_world : World := {| serverHandle := None; trace := [] |}.
Definition initial_process : Process :=
  {| closures := []; listeners := []; world := initial_world; fatals := [] |}.

(** How the main flow ended: [process.exit(code)] was called, or the
    module ran to its end (Node then exits with code 0 once nothing is
    pending and nothing was left to the runtime). *)
Inductive Termination :=
| Exited (code : Z)
| RanToCompletion.

Definition exit_code (t : Termination) : Z :=
  match t with
  | Exited code => code
  | RanToCompletion => 0%Z
  end.

(** ** The logger *)

Definition logger_info (arg : jsval) : M unit := emit (EvLoggerInfo arg).
Definition logger_error (e : error) : M unit := emit (EvLoggerError e).

(** The object literals [main.ts] hands to [logger.info]. *)
Definition bot_running_log (username : string) : jsval :=
  JObj (<["username" := JStr username]> (<["msg" := JStr "Bot running..."]> ∅)).
Definition server_started_log (url : string) : jsval :=
  JObj (<["url" := JStr url]> (<["msg" := JStr "Server started"]> ∅)).
Definition webhook_set_log (url : string) : jsval :=
  JObj (<["url" := JStr url]> (<["msg" := JStr "Webhook was set"]> ∅)).

(** ** The process object: listeners and signal delivery *)

(** [process.on(s, handleShutdown)] appends to the listeners of [s]. *)
Definition process_on (s : signal) (c : nat) : P unit := fun p =>
  (Ok tt,
   {| closures := closures p;
      listeners := listeners p ++ [(s, c)];
      world := snd (emit (EvProcessOn s c) (world p));
      fatals := fatals p |}).

(** [process.exit(code)] *)
Definition process_exit (code : Z) : P Termination :=
  liftM (emit (EvProcessExit code)) ;; ret (Exited code).

(** [let isShuttingDown = false; const handleShutdown = async () => ...]:
    a fresh closure over a fresh flag and the given [cleanUp]. *)
Definition new_handleShutdown (cleanUp : M unit) : P nat := fun p =>
  (Ok (length (closures p)),
   {| closures := closures p ++ [{| isShuttingDown := false; cleanUp := cleanUp |}];
      listeners := listeners p;
      world := world p;
      fatals := fatals p |}).

Definition set_isShuttingDown (c : nat) (cl : Closure) (v : bool) : P unit := fun p =>
  (Ok tt,
   {| closures := <[c := {| isShuttingDown := v; cleanUp := cleanUp cl |}]> (closures p);
      listeners := listeners p;
      world := world p;
      fatals := fatals p |}).

(** The body of [handleShutdown], run on closure number [c]. *)
Definition handleShutdown (c : nat) : P unit := fun p =>
  match closures p !! c with
  | None => (Ok tt, p)
  | Some cl =>
      if isShuttingDown cl then (Ok tt, p)
      else
        (set_isShuttingDown c cl true ;;
         liftM (logger_info (JStr "Shutdown")) ;;
         liftM (cleanUp cl)) p
  end.

(** [main.ts], [onShutdown] *)
Definition onShutdown (cleanUp : M unit) : P unit :=
  handleShutdown <- new_handleShutdown cleanUp ;;
  process_on SIGINT handleShutdown ;;
  process_on SIGTERM handleShutdown.

Definition has_listener (s : signal) (p : Process) : bool :=
  existsb (fun l => bool_decide (fst l = s)) (listeners p).

Definition leave_to_runtime (fs : list fatal) (p : Process) : Process :=
  {| closures := closures p; listeners := listeners p; world := world p;
     fatals := fatals p ++ fs |}.

(** The promise of an async function that nobody awaits: when it rejects,
    the rejection is unhandled. *)
Definition rejection {A} (r : result A) : list fatal :=
  match r with
  | Throw e => [UnhandledRejection e]
  | Ok _ | Never => []
  end.

(** The emitter calls one listener and drops the promise it returns. *)
Definition call_listener (c : nat) (p : Process) : Process :=
  let '(r, q) := handleShutdown c p in leave_to_runtime (rejection r) q.

(** The process receives signal [s].  When no listener is registered for
    [s] none of this code runs and the signal is left to the runtime's
    default action.  Otherwise every listener registered for [s] is
    called, in registration order, and a listener whose promise rejects
    leaves an unhandled rejection.

    [handleShutdown] sets its flag before it calls [cleanUp], and both
    cleanups of [main.ts] issue their call ([bot.stop()], the executor of
    [stopServer]) before they first suspend, with nothing after it; so a
    cleanup is run here as one step, call and answer together.  A cleanup
    that went on after its first [await] would, with a second listener
    for the same signal, be interleaved with it; the program registers
    one closure, so one listener per signal, and no process with more is
    considered below. *)
Definition deliver (s : signal) (p : Process) : Process :=
  if has_listener s p
  then fold_left
         (fun q l => if decide (fst l = s) then call_listener (snd l) q else q)
         (listeners p) p
  else leave_to_runtime [DefaultAction s] p.

Definition deliver_all (sigs : list signal) (p : Process) : Process :=
  fold_left (fun q s => deliver s q) sigs p.

(** Number of calls of a given kind in a trace. *)
Definition count_events (f : event -> bool) (t : list event) : nat :=
  length (filter (fun e => f e = true) t).

Section Main.
Variable config : Config.
Variable env : Env.

(** [await c] at suspension point [pt]: the call is issued, the signals
    that arrive while it is pending are handled, then its answer comes
    back, if it ever does. *)
Definition await {A} (pt : await_point) (c : M A) : P A := fun p =>
  let '(r, w) := c (world p) in
  (r, deliver_all (pending_signals env pt) (set_world p w)).

(** [await c] before [onShutdown] was called.  No listener is registered
    yet, so a signal that arrives during this wait ends the process by the
    runtime's default action, at once.  This code then sees what it sees
    when [c] never answers: that run is the one in which the answer of [c]
    is [Never], and an answer [Ok] or [Throw] is one that came back
    without a signal in between. *)
Definition await_unregistered {A} (c : M A) : P A := liftM c.

(** *** Calls into the bot framework and the server *)

Definition createBot (token : string) : P bot :=
  liftM (call (EvCreateBot token) (createBot_returns env token)).

Definition createServer (b : bot) : M server :=
  call (EvCreateServer b) (createServer_returns env b).

Definition bot_init (b : bot) : M unit :=
  call (EvBotInit b) (init_returns env b).

Definition bot_stop (b : bot) : M unit :=
  call (EvBotStop b) (stop_returns env b).

Definition bot_api_setWebhook (b : bot) (url : string)
    (allowed_updates : list string) (secret_token : string) : M unit :=
  call (EvSetWebhook b url allowed_updates secret_token)
       (setWebhook_returns env b url allowed_updates secret_token).

(** [await bot.start({ allowed_updates, onStart })]: while the call is
    pending the framework calls [onStart] and signals are handled, as
    the environment orders them. *)
Definition bot_start (b : bot) (allowed_updates : list string)
    (onStart : string -> M unit) : P unit := fun p =>
  let p1 := set_world p (snd (emit (EvBotStart b allowed_updates) (world p))) in
  (start_returns env b allowed_updates,
   fold_left
     (fun q h =>
        match h with
        | inl s => deliver s q
        | inr username => snd (liftM (onStart username) q)
        end)
     (start_pending env b) p1).

(** *** [startPolling] *)

Definition startPolling : P unit :=
  bot <- createBot (BOT_TOKEN config) ;;
  onShutdown (bot_stop bot) ;;
  bot_start bot (BOT_ALLOWED_UPDATES config)
    (fun username => logger_info (bot_running_log username)).

(** *** [startWebhook] *)

(** [new Promise((resolve) => { serverHandle = serve({ fetch, hostname,
    port }, (info) => resolve(info)); })]: the executor has no [reject].
    If [serve] throws, the promise rejects and no handle is stored.  If it
    returns, the handle is stored, and the promise resolves when the
    listening callback is called; it is not called when the bind fails, and
    the promise then never settles. *)
Definition startServer (srv : server) : M AddressInfo := fun w =>
  let w1 := snd (emit (EvServe srv (BOT_SERVER_HOST config) (BOT_SERVER_PORT config)) w) in
  match serve_returns env srv (BOT_SERVER_HOST config) (BOT_SERVER_PORT config) with
  | Ok (h, info) => (Ok info, {| serverHandle := Some h; trace := trace w1 |})
  | Throw e => (Throw e, w1)
  | Never =>
      (Never,
       {| serverHandle :=
            Some (serve_handle env srv (BOT_SERVER_HOST config) (BOT_SERVER_PORT config));
          trace := trace w1 |})
  end.

(** [new Promise((resolve) => { if (serverHandle) serverHandle.close(()
    => resolve()); else resolve(); })]: the callback of [close] drops its
    argument, so this promise never rejects.  Nothing follows it in the
    handler, so the wait for the callback is not modelled. *)
Definition stopServer : M unit := fun w =>
  match serverHandle w with
  | Some h => emit (EvServerClose h) w
  | None => (Ok tt, w)
  end.

(** The URL of the [Server started] log line. *)
Definition server_url (info : AddressInfo) : string :=
  if String.eqb (family info) "IPv6"
  then "http://[" +:+ address info +:+ "]:" +:+ string_of_N (port info)
  else "http://" +:+ address info +:+ ":" +:+ string_of_N (port info).

Definition startWebhook : P unit :=
  bot <- createBot (BOT_TOKEN config) ;;
  server <- await_unregistered (createServer bot) ;;
  onShutdown stopServer ;;
  await AwBotInit (bot_init bot) ;;
  info <- await AwStartServer (startServer server) ;;
  liftM (logger_info (server_started_log (server_url info))) ;;
  await AwSetWebhook
    (bot_api_setWebhook bot (BOT_WEBHOOK config) (BOT_ALLOWED_UPDATES config)
       (BOT_WEBHOOK_SECRET config)) ;;
  liftM (logger_info (webhook_set_log (BOT_WEBHOOK config))).

(** *** The top level of the module *)

Definition main : P Termination :=
  try_catch
    ((if String.eqb (BOT_MODE config) "webhook" then startWebhook
      else if String.eqb (BOT_MODE config) "polling" then startPolling
      else ret tt) ;;
     ret RanToCompletion)
    (fun error => liftM (logger_error error) ;; process_exit 1).

(** The whole run from a fresh process.  Its first component is how the
    main flow ended; [Never] is a main flow that stays suspended on a call
    that does not answer, or that the end of the process cut short. *)
Definition run : result Termination * Process := main initial_process.

End Main.

(** ** The bot's context and middlewares *)

Inductive ChatType := private | group | supergroup | channel.

#[global] Instance ChatType_eq_dec : EqDecision ChatType.
Proof. solve_decision. Defined.

Record User := { username : option string }.

(** What the handlers read from the framework's context object:
    [ctx.update], [ctx.chat.type], [ctx.from], the bot command the
    framework finds at the start of the message (if any), and the
    localisation function [ctx.t]. *)
Record Context := {
  update : gmap string jsval;
  chat : option ChatType;
  from : option User;
  command : option string;
  t : string -> gmap string jsval -> string
}.

(** A middleware receives the context and the rest of the chain. *)
Definition Middleware := Context -> M unit -> M unit.

(** [{ ...src, }] copied onto an object literal [dst]: the properties of
    [src] are written last, so they win. *)
Definition spread (src dst : gmap string jsval) : gmap string jsval := src ∪ dst.

(** [logging.ts], [getUpdateInfo] *)
Definition getUpdateInfo (ctx : Context) : gmap string jsval :=
  delete "update_id" (update ctx).

(** The argument [logHandle(id)] passes to [ctx.logger.info]. *)
Definition logHandle_event (id : string) (ctx : Context) : gmap string jsval :=
  spread
    (if String.prefix "unhandled" id
     then {[ "update" := JObj (getUpdateInfo ctx) ]}
     else ∅)
    (<["msg" := JStr ("Handle " +:+ dquote +:+ id +:+ dquote)]> ∅).

(** [logging.ts], [logHandle] *)
Definition logHandle (id : string) : Middleware := fun ctx next =>
  logger_info (JObj (logHandle_event id ctx)) ;;
  next.

(** The framework's composition of middlewares: each one gets the rest of
    the list as its [next]. *)
Fixpoint compose (mws : list Middleware) : Middleware :=
  match mws with
  | [] => fun ctx next => next
  | mw :: rest => fun ctx next => mw ctx (compose rest ctx next)
  end.

(** [composer.chatType(ty)]: the middlewares run only for that chat type. *)
Definition chatType (ty : ChatType) (mw : Middleware) : Middleware :=
  fun ctx next => if decide (chat ctx = Some ty) then mw ctx next else next.

(** [feature.command(cmd, ...mws)]: the middlewares run only for that
    command. *)
Definition on_command (cmd : string) (mws : list Middleware) : Middleware :=
  fun ctx next => if decide (command ctx = Some cmd) then compose mws ctx next else next.

Section Features.
Variable env : Env.

(** [ctx.reply(text)] *)
Definition reply (text : string) : M unit :=
  call (EvReply text) (reply_returns env text).

(** The handler of the command: it replies with [ctx.t] of the key
    [start.register] and a [name] parameter, the sender's username or,
    when that is falsy, the empty string.  Reading [username] of an
    absent [ctx.from] is a TypeError. *)
Definition start_handler : Middleware := fun ctx _ =>
  match from ctx with
  | Some user =>
      reply (t ctx "start.register"
               (<["name" := JStr (js_or (username user) EmptyString)]> ∅))
  | None =>
      fun w => (Throw "TypeError: Cannot read properties of undefined", w)
  end.

(** [start.ts], [welcomeFeature] *)
Definition welcomeFeature : Middleware :=
  chatType private
    (on_command "start" [logHandle "command-start"; start_handler]).

End Features.

(** ** Sample configurations and environments *)

Definition sample_config (mode : string) : Config := {|
  BOT_TOKEN := "123:abc";
  BOT_MODE := mode;
  BOT_ALLOWED_UPDATES := ["message"; "callback_query"];
  BOT_SERVER_HOST := "127.0.0.1";
  BOT_SERVER_PORT := 3000;
  BOT_WEBHOOK := "https://bot.example/hook";
  BOT_WEBHOOK_SECRET := "s3cret"
|}.

Definition ipv4_info : AddressInfo :=
  {| address := "127.0.0.1"; family := "IPv4"; port := 3000 |}.
Definition ipv6_info : AddressInfo :=
  {| address := "::1"; family := "IPv6"; port := 3000 |}.

(** Every collaborator succeeds; [onStart] fires once; the given signals
    arrive while [bot.start] is pending and at the given suspension
    points. *)
Definition sample_env (during_start : list signal)
    (during : await_point -> list signal) : Env := {|
  createBot_returns := fun _ => Ok 7;
  createServer_returns := fun _ => Ok 8;
  init_returns := fun _ => Ok tt;
  start_pending := fun _ => inr "giveway_bot" :: map inl during_start;
  start_returns := fun _ _ => Ok tt;
  stop_returns := fun _ => Ok tt;
  serve_returns := fun _ _ _ => Ok (9, ipv4_info);
  serve_handle := fun _ _ _ => 9;
  setWebhook_returns := fun _ _ _ _ => Ok tt;
  reply_returns := fun _ => Ok tt;
  pending_signals := during
|}.

Definition quiet : await_point -> list signal := fun _ => [].

(** The same, but [bot.init] rejects. *)
Definition init_fails_env : Env := {|
  createBot_returns := fun _ => Ok 7;
  createServer_returns := fun _ => Ok 8;
  init_returns := fun _ => Throw "401: Unauthorized";
  start_pending := fun _ => [];
  start_returns := fun _ _ => Ok tt;
  stop_returns := fun _ => Ok tt;
  serve_returns := fun _ _ _ => Ok (9, ipv4_info);
  serve_handle := fun _ _ _ => 9;
  setWebhook_returns := fun _ _ _ _ => Ok tt;
  reply_returns := fun _ => Ok tt;
  pending_signals := quiet
|}.

(** The port is taken: [serve] returns its handle, the bind fails, and the
    listening callback is never called.  The given signals arrive at the
    given suspension points. *)
Definition bind_fails_env (during : await_point -> list signal) : Env := {|
  createBot_returns := fun _ => Ok 7;
  createServer_returns := fun _ => Ok 8;
  init_returns := fun _ => Ok tt;
  start_pending := fun _ => [];
  start_returns := fun _ _ => Ok tt;
  stop_returns := fun _ => Ok tt;
  serve_returns := fun _ _ _ => Never;
  serve_handle := fun _ _ _ => 9;
  setWebhook_returns := fun _ _ _ _ => Ok tt;
  reply_returns := fun _ => Ok tt;
  pending_signals := during
|}.

(** Polling: a signal arrives while [bot.start] is pending, [bot.stop]
    rejects, and [bot.start] never answers. *)
Definition stop_rejects_env : Env := {|
  createBot_returns := fun _ => Ok 7;
  createServer_returns := fun _ => Ok 8;
  init_returns := fun _ => Ok tt;
  start_pending := fun _ => [inr "giveway_bot"; inl SIGTERM];
  start_returns := fun _ _ => Never;
  stop_returns := fun _ => Throw "ETIMEDOUT";
  serve_returns := fun _ _ _ => Ok (9, ipv4_info);
  serve_handle := fun _ _ _ => 9;
  setWebhook_returns := fun _ _ _ _ => Ok tt;
  reply_returns := fun _ => Ok tt;
  pending_signals := quiet
|}.

(** ** Observations on traces *)

Definition is_BotInit (e : event) : bool :=
  match e with EvBotInit _ => true | _ => false end.
Definition is_BotStart (e : event) : bool :=
  match e with EvBotStart _ _ => true | _ => false end.
Definition is_BotStop (e : event) : bool :=
  match e with EvBotStop _ => true | _ => false end.
Definition is_Serve (e : event) : bool :=
  match e with EvServe _ _ _ => true | _ => false end.
Definition is_SetWebhook (e : event) : bool :=
  match e with EvSetWebhook _ _ _ _ => true | _ => false end.

(** The three steps of the webhook startup. *)
Definition is_startup_step (e : event) : bool :=
  is_BotInit e || is_Serve e || is_SetWebhook e.

(** The calls on which a startup path blocks. *)
Definition is_blocking_call (e : event) : bool :=
  is_BotStart e || is_BotInit e || is_Serve e.

Definition startup_steps (tr : list event) : list event :=
  filter (fun e => is_startup_step e = true) tr.

(** The errors handed to [logger.error], and the codes handed to
    [process.exit], in order. *)
Definition error_logs (tr : list event) : list error :=
  omap (fun e => match e with EvLoggerError x => Some x | _ => None end) tr.
Definition exit_codes (tr : list event) : list Z :=
  omap (fun e => match e with EvProcessExit c => Some c | _ => None end) tr.

(** The log line of [handleShutdown]. *)
Definition shutdown_log : event := EvLoggerInfo (JStr "Shutdown").

(** What a startup step answered in a given environment. *)
Definition step_answer (env : Env) (e : event) : result unit :=
  match e with
  | EvBotInit b => init_returns env b
  | EvServe srv host prt =>
      match serve_returns env srv host prt with
      | Ok _ => Ok tt
      | Throw x => Throw x
      | Never => Never
      end
  | EvSetWebhook b url allowed secret => setWebhook_returns env b url allowed secret
  | _ => Ok tt
  end.

(** The handle [serve] returned, if it returned. *)
Definition returned_handle (env : Env) (srv : server) (host : string) (prt : N)
    : option handle :=
  match serve_returns env srv host prt with
  | Ok (h, _) => Some h
  | Throw _ => None
  | Never => Some (serve_handle env srv host prt)
  end.

(** The process right after [onShutdown(cleanUp)] on a process without
    listeners whose closures are [cs] and which has left [fs] to the
    runtime: one more closure, registered for both signals. *)
Definition registered_in (fs : list fatal) (cs : list Closure) (cl : Closure)
    (w : World) : Process :=
  {| closures := cs ++ [cl];
     listeners := [(SIGINT, length cs); (SIGTERM, length cs)];
     world := w;
     fatals := fs |}.

(** The same process after the latch has fired: the cleanup has run after
    the [Shutdown] line, and its rejection, if any, is unhandled. *)
Definition fired_in (fs : list fatal) (cs : list Closure) (cl : Closure)
    (w : World) : Process :=
  registered_in
    (fs ++ rejection (fst (cleanUp cl (snd (logger_info (JStr "Shutdown") w)))))
    cs {| isShuttingDown := true; cleanUp := cleanUp cl |}
    (snd (cleanUp cl (snd (logger_info (JStr "Shutdown") w)))).

(** The two, on a process that has left nothing to the runtime. *)
Definition registered (cs : list Closure) (cl : Closure) (w : World) : Process :=
  registered_in [] cs cl w.
Definition fired (cs : list Closure) (cl : Closure) (w : World) : Process :=
  fired_in [] cs cl w.

(** [s1] occurs inside [s2]. *)
Definition contains (s2 s1 : string) : Prop :=
  exists pre post, s2 = pre +:+ s1 +:+ post.

(** A context for the examples; its [t] renders the key and the [name]
    parameter. *)
Definition sample_t (key : string) (params : gmap string jsval) : string :=
  match params !! "name" with
  | Some (JStr n) => key +:+ "(" +:+ n +:+ ")"
  | _ => key
  end.

Definition sample_ctx (ty : ChatType) (name : option string) : Context := {|
  update := <["update_id" := JNum 5]> (<["message" := JStr "/start"]> ∅);
  chat := Some ty;
  from := Some {| username := name |};
  command := Some "start";
  t := sample_t
|}.

(** ** Closed forms used in the proofs *)

Definition nonempty {A} (l : list A) : bool :=
  match l with [] => false | _ :: _ => true end.

(** [w] with [evs] added at the end of its trace. *)
Definition world_append (w : World) (evs : list event) : World :=
  {| serverHandle := serverHandle w; trace := trace w ++ evs |}.

(** What a burst of signals adds to the trace when the registered cleanup
    adds [cleanup_events]: nothing if the burst is empty or the flag is
    already set, else the [Shutdown] line and the cleanup's events. *)
Definition burst_events (sigs : list signal) (flag : bool)
    (cleanup_events : list event) : list event :=
  if nonempty sigs && negb flag then shutdown_log :: cleanup_events else [].

(** What happens while [bot.start] is pending on bot [b], as events: each
    [onStart] logs a line, the first signal logs [Shutdown] and stops the
    bot, later signals do nothing. *)
Fixpoint start_pending_events (b : bot) (hs : list (signal + string))
    (flag : bool) : list event :=
  match hs with
  | [] => []
  | inl _ :: hs' =>
      (if flag then [] else [shutdown_log; EvBotStop b])
      ++ start_pending_events b hs' true
  | inr username :: hs' =>
      EvLoggerInfo (bot_running_log username) :: start_pending_events b hs' flag
  end.

Definition has_signal (hs : list (signal + string)) : bool :=
  existsb (fun h => match h with inl _ => true | inr _ => false end) hs.

(** What a burst of signals leaves to the runtime when the registered
    cleanup answers [r]: its rejection, if the burst fires the latch. *)
Definition burst_fatals {A} (sigs : list signal) (flag : bool) (r : result A)
    : list fatal :=
  if nonempty sigs && negb flag then rejection r else [].

(** What the signals that arrive while [bot.start] is pending on bot [b]
    leave to the runtime: the rejection of [bot.stop], if one arrives. *)
Definition start_pending_fatals (env : Env) (b : bot) : list fatal :=
  if has_signal (start_pending env b) then rejection (stop_returns env b) else [].

(** ** Further observations *)

Definition is_ProcessOn (e : event) : bool :=
  match e with EvProcessOn _ _ => true | _ => false end.
Definition is_ServerClose (e : event) : bool :=
  match e with EvServerClose _ => true | _ => false end.
Definition is_Reply (e : event) : bool :=
  match e with EvReply _ => true | _ => false end.

(** The [Shutdown] line of [handleShutdown]. *)
Definition is_shutdown_log (e : event) : bool :=
  match e with
  | EvLoggerInfo (JStr s) => String.eqb s "Shutdown"
  | _ => false
  end.

(** The message of a log line: the string handed to [logger.info], or the
    [msg] property of the object handed to it. *)
Definition log_msg (e : event) : option string :=
  match e with
  | EvLoggerInfo (JStr s) => Some s
  | EvLoggerInfo (JObj o) =>
      match o !! "msg" with
      | Some (JStr s) => Some s
      | _ => None
      end
  | _ => None
  end.

Definition log_messages (tr : list event) : list string := omap log_msg tr.

(** The [username] property of a [Bot running...] line. *)
Definition running_username (e : event) : option string :=
  match e with
  | EvLoggerInfo (JObj o) =>
      match o !! "msg", o !! "username" with
      | Some (JStr m), Some (JStr u) =>
          if String.eqb m "Bot running..." then Some u else None
      | _, _ => None
      end
  | _ => None
  end.

(** The usernames the framework calls [onStart] with, in order. *)
Definition onStart_calls (hs : list (signal + string)) : list string :=
  omap (fun h => match h with inr u => Some u | inl _ => None end) hs.

(** An environment in which no signal arrives during the startup. *)
Definition no_signal (env : Env) : Prop :=
  (forall pt, pending_signals env pt = [])
  /\ forall b, has_signal (start_pending env b) = false.

(** * Properties *)

(** ** Sample runs *)

(** Polling, with SIGTERM then SIGINT arriving while [bot.start] is
    pending: the bot is stopped once. *)
Example polling_run_two_signals :
  let '(r, p) := run (sample_config "polling") (sample_env [SIGTERM; SIGINT] quiet) in
  r = Ok RanToCompletion
  /\ trace (world p)
     = [EvCreateBot "123:abc"; EvProcessOn SIGINT 0; EvProcessOn SIGTERM 0;
        EvBotStart 7 ["message"; "callback_query"];
        EvLoggerInfo (bot_running_log "giveway_bot");
        shutdown_log; EvBotStop 7]
  /\ map isShuttingDown (closures p) = [true].
Proof. vm_compute. repeat split. Qed.

(** Webhook, with SIGINT arriving while the bind is pending: the listener
    just created is closed, and the startup goes on. *)
Example webhook_run_signal_during_bind :
  let '(r, p) :=
    run (sample_config "webhook")
      (sample_env [] (fun pt => match pt with AwStartServer => [SIGINT] | _ => [] end)) in
  r = Ok RanToCompletion
  /\ trace (world p)
     = [EvCreateBot "123:abc"; EvCreateServer 7;
        EvProcessOn SIGINT 0; EvProcessOn SIGTERM 0; EvBotInit 7;
        EvServe 8 "127.0.0.1" 3000; shutdown_log; EvServerClose 9;
        EvLoggerInfo (server_started_log "http://127.0.0.1:3000");
        EvSetWebhook 7 "https://bot.example/hook" ["message"; "callback_query"] "s3cret";
        EvLoggerInfo (webhook_set_log "https://bot.example/hook")].
Proof. vm_compute. repeat split. Qed.

(** Webhook, with signals arriving while [bot.init] is pending: the
    shutdown handler runs with no server handle, so nothing is closed. *)
Example webhook_run_signal_during_init :
  let '(r, p) :=
    run (sample_config "webhook")
      (sample_env [] (fun pt => match pt with AwBotInit => [SIGINT; SIGTERM] | _ => [] end)) in
  r = Ok RanToCompletion
  /\ startup_steps (trace (world p))
     = [EvBotInit 7; EvServe 8 "127.0.0.1" 3000;
        EvSetWebhook 7 "https://bot.example/hook" ["message"; "callback_query"] "s3cret"]
  /\ count_events (fun e => match e with EvServerClose _ => true | _ => false end)
       (trace (world p)) = 0
  /\ map isShuttingDown (closures p) = [true].
Proof. vm_compute. repeat split. Qed.

(** Webhook, the port taken: [serve] returns, the bind fails, and the run
    stays at the bind.  Nothing is logged as an error and [process.exit]
    is not called. *)
Example webhook_run_bind_fails :
  let '(r, p) := run (sample_config "webhook") (bind_fails_env quiet) in
  r = Never
  /\ trace (world p)
     = [EvCreateBot "123:abc"; EvCreateServer 7;
        EvProcessOn SIGINT 0; EvProcessOn SIGTERM 0; EvBotInit 7;
        EvServe 8 "127.0.0.1" 3000]
  /\ serverHandle (world p) = Some 9.
Proof. vm_compute. repeat split. Qed.

(** Polling, with SIGTERM arriving while [bot.start] is pending and
    [bot.stop] rejecting: the rejection is unhandled. *)
Example polling_run_stop_rejects :
  let '(r, p) := run (sample_config "polling") stop_rejects_env in
  r = Never
  /\ trace (world p)
     = [EvCreateBot "123:abc"; EvProcessOn SIGINT 0; EvProcessOn SIGTERM 0;
        EvBotStart 7 ["message"; "callback_query"];
        EvLoggerInfo (bot_running_log "giveway_bot");
        shutdown_log; EvBotStop 7]
  /\ fatals p = [UnhandledRejection "ETIMEDOUT"].
Proof. vm_compute. repeat split. Qed.

(** Webhook, with [bot.init] rejecting. *)
Example webhook_run_init_fails :
  let '(r, p) := run (sample_config "webhook") init_fails_env in
  r = Ok (Exited 1)
  /\ trace (world p)
     = [EvCreateBot "123:abc"; EvCreateServer 7;
        EvProcessOn SIGINT 0; EvProcessOn SIGTERM 0; EvBotInit 7;
        EvLoggerError "401: Unauthorized"; EvProcessExit 1].
Proof. vm_compute. repeat split. Qed.

(** [/start] from a user without username, and in a group chat. *)
Example start_without_username :
  trace (snd (welcomeFeature (sample_env [] quiet) (sample_ctx private None)
                (ret tt) initial_world))
  = [EvLoggerInfo (JObj (logHandle_event "command-start" (sample_ctx private None)));
     EvReply "start.register()"].
Proof. vm_compute. reflexivity. Qed.

Example start_in_group_chat :
  trace (snd (welcomeFeature (sample_env [] quiet) (sample_ctx group (Some "alice"))
                (ret tt) initial_world))
  = [].
Proof. vm_compute. reflexivity. Qed.

Example js_or_samples :
  js_or (Some "alice") "x" = "alice" /\ js_or (Some EmptyString) "x" = "x"
  /\ js_or None "x" = "x".
Proof. repeat split. Qed.

(** ** Monad steps *)

Lemma bindP_Ok {A B} (c : P A) (k : A -> P B) p a p' :
  c p = (Ok a, p') -> (x <- c ;; k x) p = k a p'.
Proof. intros H. cbn. rewrite H. reflexivity. Qed.

Lemma bindP_Throw {A B} (c : P A) (k : A -> P B) p e p' :
  c p = (Throw e, p') -> (x <- c ;; k x) p = (Throw e, p').
Proof. intros H. cbn. rewrite H. reflexivity. Qed.

Lemma bindP_Never {A B} (c : P A) (k : A -> P B) p p' :
  c p = (Never, p') -> (x <- c ;; k x) p = (Never, p').
Proof. intros H. cbn. rewrite H. reflexivity. Qed.

Lemma trace_emit e w : trace (snd (emit e w)) = trace w ++ [e].
Proof. reflexivity. Qed.

(** ** Signal delivery *)

Lemma leave_to_runtime_nil p : leave_to_runtime [] p = p.
Proof.
  destruct p. unfold leave_to_runtime. cbn [closures listeners world fatals].
  rewrite app_nil_r. reflexivity.
Qed.

Lemma handleShutdown_registered fs cs cl w :
  handleShutdown (length cs) (registered_in fs cs cl w)
  = if isShuttingDown cl then (Ok tt, registered_in fs cs cl w)
    else (fst (cleanUp cl (snd (logger_info (JStr "Shutdown") w))),
          registered_in fs cs {| isShuttingDown := true; cleanUp := cleanUp cl |}
            (snd (cleanUp cl (snd (logger_info (JStr "Shutdown") w))))).
Proof.
  unfold handleShutdown, registered_in. cbn [closures].
  rewrite list_lookup_middle by reflexivity.
  destruct cl as [[|] clean]; cbn [isShuttingDown cleanUp]; [reflexivity|].
  cbn. rewrite insert_app_r_alt, Nat.sub_diag by lia.
  unfold liftM, set_world, logger_info. cbn.
  destruct (clean _) as [[[]|e|] w']; reflexivity.
Qed.

Lemma call_listener_registered fs cs cl w :
  call_listener (length cs) (registered_in fs cs cl w)
  = if isShuttingDown cl then registered_in fs cs cl w else fired_in fs cs cl w.
Proof.
  unfold call_listener. rewrite handleShutdown_registered.
  destruct (isShuttingDown cl).
  - cbn [rejection]. apply leave_to_runtime_nil.
  - reflexivity.
Qed.

Lemma has_listener_registered s fs cs cl w :
  has_listener s (registered_in fs cs cl w) = true.
Proof. destruct s; reflexivity. Qed.

Lemma deliver_registered s fs cs cl w :
  deliver s (registered_in fs cs cl w)
  = if isShuttingDown cl then registered_in fs cs cl w else fired_in fs cs cl w.
Proof.
  unfold deliver. rewrite has_listener_registered.
  change (listeners (registered_in fs cs cl w))
    with [(SIGINT, length cs); (SIGTERM, length cs)].
  destruct s; cbn [fold_left fst snd]; repeat case_decide; try congruence;
    apply call_listener_registered.
Qed.

Lemma deliver_fired s fs cs cl w : deliver s (fired_in fs cs cl w) = fired_in fs cs cl w.
Proof. unfold fired_in at 1. rewrite deliver_registered. reflexivity. Qed.

Lemma deliver_all_fired sigs fs cs cl w :
  deliver_all sigs (fired_in fs cs cl w) = fired_in fs cs cl w.
Proof.
  induction sigs as [|s sigs IH]; [reflexivity|].
  cbn [deliver_all fold_left]. rewrite deliver_fired. exact IH.
Qed.

(** Any non-empty burst of signals has the effect of its first one. *)
Lemma deliver_all_registered sigs fs cs cl w :
  deliver_all sigs (registered_in fs cs cl w)
  = match sigs with
    | [] => registered_in fs cs cl w
    | _ :: _ =>
        if isShuttingDown cl then registered_in fs cs cl w else fired_in fs cs cl w
    end.
Proof.
  destruct sigs as [|s sigs]; [reflexivity|].
  cbn [deliver_all fold_left]. rewrite deliver_registered.
  destruct cl as [[|] clean]; cbn [isShuttingDown].
  - induction sigs as [|s' sigs IH]; [reflexivity|].
    cbn [fold_left]. rewrite deliver_registered. exact IH.
  - apply deliver_all_fired.
Qed.

Lemma onShutdown_registers clean cs w fs :
  onShutdown clean {| closures := cs; listeners := []; world := w; fatals := fs |}
  = (Ok tt,
     registered_in fs cs {| isShuttingDown := false; cleanUp := clean |}
       {| serverHandle := serverHandle w;
          trace := trace w ++ [EvProcessOn SIGINT (length cs);
                               EvProcessOn SIGTERM (length cs)] |}).
Proof.
  unfold onShutdown, registered_in, process_on, emit. cbn.
  rewrite <- app_assoc. reflexivity.
Qed.

(** ** Counting events *)

Lemma count_events_app f t1 t2 :
  count_events f (t1 ++ t2) = count_events f t1 + count_events f t2.
Proof. unfold count_events. rewrite filter_app, length_app. reflexivity. Qed.

Lemma count_events_cons f e tr :
  count_events f (e :: tr) = (if f e then 1 else 0) + count_events f tr.
Proof.
  unfold count_events. rewrite filter_cons.
  destruct (f e); case_decide; try congruence; reflexivity.
Qed.

Lemma count_events_nil f : count_events f [] = 0.
Proof. reflexivity. Qed.

(** ** The shutdown coordinator *)

(** C1.  After [onShutdown(cleanUp)] on any process without listeners, for
    every first signal [s] and every
    further signals [rest] (any mix of SIGINT and SIGTERM): the first
    delivery finds the flag unset, sets it and runs [cleanUp] once, on the
    world that follows the [Shutdown] log line; after any non-empty burst a
    further delivery leaves the whole process state unchanged, so the burst
    has the effect of its first delivery alone; and when the cleanup is a
    recorded call, that call occurs exactly once more in the trace. *)
Theorem onShutdown_cleanup_once_on_first_signal
    (clean : M unit) (cs : list Closure) (w : World) (fs : list fatal)
    (s : signal) (rest : list signal) :
  let p1 := snd (onShutdown clean
                   {| closures := cs; listeners := []; world := w;
                      fatals := fs |}) in
  (isShuttingDown <$> closures p1 !! length cs) = Some false
  /\ world (deliver s p1)
     = snd (clean (snd (logger_info (JStr "Shutdown") (world p1))))
  /\ (isShuttingDown <$> closures (deliver s p1) !! length cs) = Some true
  /\ (forall later s',
        deliver s' (deliver_all (s :: later) p1) = deliver_all (s :: later) p1)
  /\ deliver_all (s :: rest) p1 = deliver s p1
  /\ (forall (e : event) (answer : result unit) (f : event -> bool),
        clean = call e answer -> f e = true -> f shutdown_log = false ->
        count_events f (trace (world (deliver_all (s :: rest) p1)))
        = S (count_events f (trace (world p1)))).
Proof.
  intros p1. subst p1. rewrite onShutdown_registers. cbn [snd].
  set (w1 := {| serverHandle := _; trace := _ |}).
  set (cl := {| isShuttingDown := false; cleanUp := clean |}).
  assert (Hall : forall l,
             deliver_all (s :: l) (registered_in fs cs cl w1) = fired_in fs cs cl w1).
  { intros l. rewrite deliver_all_registered. reflexivity. }
  assert (Hone : deliver s (registered_in fs cs cl w1) = fired_in fs cs cl w1).
  { rewrite deliver_registered. reflexivity. }
  rewrite Hone.
  repeat split.
  - unfold registered_in. cbn [closures].
    rewrite list_lookup_middle by reflexivity. reflexivity.
  - unfold fired_in, registered_in. cbn [closures].
    rewrite list_lookup_middle by reflexivity. reflexivity.
  - intros later s'. rewrite Hall. apply deliver_fired.
  - apply Hall.
  - intros e answer f -> He Hlog. rewrite Hall.
    unfold fired_in, registered_in. cbn [world cleanUp cl].
    unfold call. cbn [snd]. rewrite !trace_emit.
    unfold shutdown_log in Hlog. unfold logger_info. rewrite trace_emit.
    rewrite !count_events_app, !count_events_cons, !count_events_nil.
    rewrite He, Hlog. lia.
Qed.

(** ** Closed form of signal bursts *)

Lemma world_append_nil w : world_append w [] = w.
Proof. destruct w. unfold world_append. cbn. rewrite app_nil_r. reflexivity. Qed.

Lemma world_append_app w a b :
  world_append (world_append w a) b = world_append w (a ++ b).
Proof. unfold world_append. cbn. rewrite app_assoc. reflexivity. Qed.

(** A burst of signals on a registered latch whose cleanup appends [evs]
    and answers [r]. *)
Lemma deliver_all_burst sigs fs cs flag clean w evs r :
  clean (world_append w [shutdown_log])
  = (r, world_append (world_append w [shutdown_log]) evs) ->
  deliver_all sigs (registered_in fs cs {| isShuttingDown := flag; cleanUp := clean |} w)
  = registered_in (fs ++ burst_fatals sigs flag r) cs
      {| isShuttingDown := flag || nonempty sigs; cleanUp := clean |}
      (world_append w (burst_events sigs flag evs)).
Proof.
  intros Hclean. rewrite deliver_all_registered. unfold burst_events, burst_fatals.
  destruct sigs as [|s sigs]; cbn [nonempty isShuttingDown andb].
  - rewrite orb_false_r, world_append_nil, app_nil_r. reflexivity.
  - destruct flag; cbn [andb negb orb].
    + rewrite world_append_nil, app_nil_r. reflexivity.
    + unfold fired_in. cbn [cleanUp].
      change (snd (logger_info (JStr "Shutdown") w))
        with (world_append w [shutdown_log]).
      rewrite Hclean. cbn [fst snd]. rewrite world_append_app. reflexivity.
Qed.

Lemma stopServer_run w :
  stopServer w
  = (Ok tt,
     world_append w (match serverHandle w with
                     | Some h => [EvServerClose h]
                     | None => []
                     end)).
Proof.
  unfold stopServer. destruct (serverHandle w) as [h|] eqn:E.
  - unfold emit, world_append. cbn. rewrite E. reflexivity.
  - rewrite world_append_nil. reflexivity.
Qed.

Lemma await_registered {A} env pt (c : M A) cs cl w :
  await env pt c (registered cs cl w)
  = (fst (c w), deliver_all (pending_signals env pt) (registered cs cl (snd (c w)))).
Proof. unfold await. cbn [world registered registered_in]. destruct (c w); reflexivity. Qed.

Lemma await_unregistered_run {A} (c : M A) cs w fs :
  await_unregistered c {| closures := cs; listeners := []; world := w; fatals := fs |}
  = (fst (c w), {| closures := cs; listeners := []; world := snd (c w); fatals := fs |}).
Proof.
  unfold await_unregistered, liftM. cbn [world]. destruct (c w) as [r w']. reflexivity.
Qed.

(** [stopServer] never rejects, so a burst on its latch leaves nothing to
    the runtime. *)
Lemma deliver_all_stopServer sigs cs flag w :
  deliver_all sigs
    (registered cs {| isShuttingDown := flag; cleanUp := stopServer |} w)
  = registered cs
      {| isShuttingDown := flag || nonempty sigs; cleanUp := stopServer |}
      (world_append w
         (burst_events sigs flag
            (match serverHandle w with
             | Some h => [EvServerClose h]
             | None => []
             end))).
Proof.
  unfold registered.
  rewrite (deliver_all_burst sigs [] cs flag stopServer w _ (Ok tt))
    by (rewrite stopServer_run; reflexivity).
  unfold burst_fatals. destruct (nonempty sigs && negb flag); reflexivity.
Qed.

(** ** Closed form of [startWebhook] *)

Section WebhookRuns.
Variable config : Config.
Variable env : Env.

Local Abbreviation tok := (BOT_TOKEN config).
Local Abbreviation host := (BOT_SERVER_HOST config).
Local Abbreviation prt := (BOT_SERVER_PORT config).
Local Abbreviation s1 := (pending_signals env AwBotInit).
Local Abbreviation s2 := (pending_signals env AwStartServer).
Local Abbreviation s3 := (pending_signals env AwSetWebhook).
Local Abbreviation latch flag :=
  {| isShuttingDown := flag; cleanUp := stopServer |}.

(** Trace up to and including the [bot.init] call and what arrives while
    it is pending. *)
Local Abbreviation upto_init b :=
  ([EvCreateBot tok; EvCreateServer b;
    EvProcessOn SIGINT 0; EvProcessOn SIGTERM 0; EvBotInit b]
   ++ burst_events s1 false []).

(** The [serve] call and what arrives while the bind is pending. *)
Local Abbreviation bind_part srv hd :=
  (EvServe srv host prt
   :: burst_events s2 (nonempty s1)
        (match hd with Some h => [EvServerClose h] | None => [] end)).

(** The [Server started] line, the [setWebhook] call and what arrives
    while it is pending. *)
Local Abbreviation register_part b h info :=
  ([EvLoggerInfo (server_started_log (server_url info));
    EvSetWebhook b (BOT_WEBHOOK config) (BOT_ALLOWED_UPDATES config)
      (BOT_WEBHOOK_SECRET config)]
   ++ burst_events s3 (nonempty s1 || nonempty s2) [EvServerClose h]).

Lemma createBot_run token cs ls w fs :
  createBot env token {| closures := cs; listeners := ls; world := w; fatals := fs |}
  = (createBot_returns env token,
     {| closures := cs; listeners := ls;
        world := world_append w [EvCreateBot token]; fatals := fs |}).
Proof. reflexivity. Qed.

Lemma createServer_run b w :
  createServer env b w = (createServer_returns env b, world_append w [EvCreateServer b]).
Proof. reflexivity. Qed.

Lemma bot_init_run b w :
  bot_init env b w = (init_returns env b, world_append w [EvBotInit b]).
Proof. reflexivity. Qed.

Lemma setWebhook_run b url allowed secret w :
  bot_api_setWebhook env b url allowed secret w
  = (setWebhook_returns env b url allowed secret,
     world_append w [EvSetWebhook b url allowed secret]).
Proof. reflexivity. Qed.

Lemma startServer_run srv w :
  startServer config env srv w
  = match serve_returns env srv host prt with
    | Ok (h, info) =>
        (Ok info, {| serverHandle := Some h;
                     trace := trace w ++ [EvServe srv host prt] |})
    | Throw e => (Throw e, world_append w [EvServe srv host prt])
    | Never =>
        (Never, {| serverHandle := Some (serve_handle env srv host prt);
                   trace := trace w ++ [EvServe srv host prt] |})
    end.
Proof.
  unfold startServer.
  destruct (serve_returns env srv host prt) as [[h info]|e|]; reflexivity.
Qed.

Lemma logger_info_run arg fs cs cl w :
  liftM (logger_info arg) (registered_in fs cs cl w)
  = (Ok tt, registered_in fs cs cl (world_append w [EvLoggerInfo arg])).
Proof. reflexivity. Qed.

(** The process when [createBot] did not return a bot. *)
Local Abbreviation without_bot :=
  {| closures := []; listeners := [];
     world := {| serverHandle := None; trace := [EvCreateBot tok] |};
     fatals := [] |}.

(** The process when [createServer] did not return a server. *)
Local Abbreviation without_server b :=
  {| closures := []; listeners := [];
     world := {| serverHandle := None;
                 trace := [EvCreateBot tok; EvCreateServer b] |};
     fatals := [] |}.

Lemma startWebhook_createBot_throws e :
  createBot_returns env tok = Throw e ->
  startWebhook config env initial_process = (Throw e, without_bot).
Proof.
  intros H. unfold startWebhook.
  erewrite bindP_Throw; [reflexivity|].
  unfold initial_process. rewrite createBot_run. rewrite H. reflexivity.
Qed.

Lemma startWebhook_createBot_never :
  createBot_returns env tok = Never ->
  startWebhook config env initial_process = (Never, without_bot).
Proof.
  intros H. unfold startWebhook.
  erewrite bindP_Never; [reflexivity|].
  unfold initial_process. rewrite createBot_run. rewrite H. reflexivity.
Qed.

Lemma startWebhook_createServer_throws b e :
  createBot_returns env tok = Ok b ->
  createServer_returns env b = Throw e ->
  startWebhook config env initial_process = (Throw e, without_server b).
Proof.
  intros Hb Hs. unfold startWebhook.
  erewrite bindP_Ok;
    [|unfold initial_process; rewrite createBot_run; rewrite Hb; reflexivity].
  erewrite bindP_Throw; [reflexivity|].
  rewrite await_unregistered_run, createServer_run, Hs. reflexivity.
Qed.

Lemma startWebhook_createServer_never b :
  createBot_returns env tok = Ok b ->
  createServer_returns env b = Never ->
  startWebhook config env initial_process = (Never, without_server b).
Proof.
  intros Hb Hs. unfold startWebhook.
  erewrite bindP_Ok;
    [|unfold initial_process; rewrite createBot_run; rewrite Hb; reflexivity].
  erewrite bindP_Never; [reflexivity|].
  rewrite await_unregistered_run, createServer_run, Hs. reflexivity.
Qed.

(** Once bot and server exist: the latch is registered and [bot.init] is
    called; the rest depends on what the three steps answer. *)
Lemma startWebhook_created b srv :
  createBot_returns env tok = Ok b ->
  createServer_returns env b = Ok srv ->
  startWebhook config env initial_process
  = match init_returns env b with
    | Throw e =>
        (Throw e,
         registered [] (latch (nonempty s1))
           {| serverHandle := None; trace := upto_init b |})
    | Never =>
        (Never,
         registered [] (latch (nonempty s1))
           {| serverHandle := None; trace := upto_init b |})
    | Ok _ =>
        match serve_returns env srv host prt with
        | Throw e =>
            (Throw e,
             registered [] (latch (nonempty s1 || nonempty s2))
               {| serverHandle := None;
                  trace := upto_init b ++ bind_part srv None |})
        | Never =>
            (Never,
             registered [] (latch (nonempty s1 || nonempty s2))
               {| serverHandle := Some (serve_handle env srv host prt);
                  trace := upto_init b
                           ++ bind_part srv (Some (serve_handle env srv host prt)) |})
        | Ok (h, info) =>
            match setWebhook_returns env b (BOT_WEBHOOK config)
                    (BOT_ALLOWED_UPDATES config) (BOT_WEBHOOK_SECRET config) with
            | Throw e =>
                (Throw e,
                 registered [] (latch (nonempty s1 || nonempty s2 || nonempty s3))
                   {| serverHandle := Some h;
                      trace := upto_init b ++ bind_part srv (Some h)
                               ++ register_part b h info |})
            | Never =>
                (Never,
                 registered [] (latch (nonempty s1 || nonempty s2 || nonempty s3))
                   {| serverHandle := Some h;
                      trace := upto_init b ++ bind_part srv (Some h)
                               ++ register_part b h info |})
            | Ok _ =>
                (Ok tt,
                 registered [] (latch (nonempty s1 || nonempty s2 || nonempty s3))
                   {| serverHandle := Some h;
                      trace := upto_init b ++ bind_part srv (Some h)
                               ++ register_part b h info
                               ++ [EvLoggerInfo (webhook_set_log (BOT_WEBHOOK config))] |})
            end
        end
    end.
Proof.
  intros Hb Hs. unfold startWebhook.
  erewrite bindP_Ok;
    [|unfold initial_process; rewrite createBot_run; rewrite Hb; reflexivity].
  erewrite bindP_Ok;
    [|rewrite await_unregistered_run, createServer_run, Hs; reflexivity].
  erewrite bindP_Ok; [|apply onShutdown_registers].
  cbn [snd world_append initial_world serverHandle trace app length].
  change (registered_in [] ?cs ?cl ?w) with (registered cs cl w).
  assert (Hnorm : forall A (r : result A) cl cl' hd t1 t2,
             cl = cl' -> t1 = t2 ->
             (r, registered [] cl {| serverHandle := hd; trace := t1 |})
             = (r, registered [] cl' {| serverHandle := hd; trace := t2 |})).
  { intros; subst; reflexivity. }
  (* bot.init *)
  destruct (init_returns env b) as [[]|e|] eqn:Hi.
  2: { erewrite bindP_Throw; [reflexivity|].
       rewrite await_registered, bot_init_run, Hi. cbn [fst snd].
       rewrite deliver_all_stopServer. reflexivity. }
  2: { erewrite bindP_Never; [reflexivity|].
       rewrite await_registered, bot_init_run, Hi. cbn [fst snd].
       rewrite deliver_all_stopServer. reflexivity. }
  erewrite bindP_Ok;
    [|rewrite await_registered, bot_init_run, Hi; cbn [fst snd];
      rewrite deliver_all_stopServer; reflexivity].
  cbn [world_append serverHandle trace orb].
  (* the bind *)
  destruct (serve_returns env srv host prt) as [[h info]|e|] eqn:Hserve.
  2: { erewrite bindP_Throw; [reflexivity|].
       rewrite await_registered, startServer_run, Hserve. cbn [fst snd].
       rewrite deliver_all_stopServer.
       unfold world_append. cbn [serverHandle trace].
       apply Hnorm; [reflexivity|]. rewrite <- !app_assoc. reflexivity. }
  2: { erewrite bindP_Never; [reflexivity|].
       rewrite await_registered, startServer_run, Hserve. cbn [fst snd].
       rewrite deliver_all_stopServer.
       unfold world_append. cbn [serverHandle trace].
       apply Hnorm; [reflexivity|]. rewrite <- !app_assoc. reflexivity. }
  erewrite bindP_Ok;
    [|rewrite await_registered, startServer_run, Hserve; cbn [fst snd];
      rewrite deliver_all_stopServer; reflexivity].
  cbn [world_append serverHandle trace].
  erewrite bindP_Ok; [|apply logger_info_run].
  (* the registration *)
  destruct (setWebhook_returns env b _ _ _) as [[]|e|] eqn:Hset.
  2: { erewrite bindP_Throw; [reflexivity|].
       rewrite await_registered, setWebhook_run, Hset. cbn [fst snd].
       rewrite deliver_all_stopServer.
       unfold world_append. cbn [serverHandle trace].
       apply Hnorm; [reflexivity|]. rewrite <- !app_assoc. reflexivity. }
  2: { erewrite bindP_Never; [reflexivity|].
       rewrite await_registered, setWebhook_run, Hset. cbn [fst snd].
       rewrite deliver_all_stopServer.
       unfold world_append. cbn [serverHandle trace].
       apply Hnorm; [reflexivity|]. rewrite <- !app_assoc. reflexivity. }
  erewrite bindP_Ok;
    [|rewrite await_registered, setWebhook_run, Hset; cbn [fst snd];
      rewrite deliver_all_stopServer; reflexivity].
  change (liftM (logger_info ?a) (registered ?cs ?cl ?w))
    with (liftM (logger_info a) (registered_in [] cs cl w)).
  rewrite logger_info_run.
  unfold world_append.
  cbn [serverHandle trace].
  apply Hnorm; [reflexivity|]. rewrite <- !app_assoc. reflexivity.
Qed.

End WebhookRuns.

(** ** Closed form of the top level *)

Lemma main_webhook config env :
  BOT_MODE config = "webhook" ->
  run config env
  = match startWebhook config env initial_process with
    | (Ok _, p) => (Ok RanToCompletion, p)
    | (Throw e, p) =>
        (Ok (Exited 1),
         set_world p (world_append (world p) [EvLoggerError e; EvProcessExit 1]))
    | (Never, p) => (Never, p)
    end.
Proof.
  intros Hmode. unfold run, main, try_catch. rewrite Hmode. cbn [String.eqb Ascii.eqb Bool.eqb].
  cbn [bind P_monad].
  destruct (startWebhook config env initial_process) as [[[]|e|] p];
    [reflexivity| |reflexivity].
  unfold process_exit, liftM, logger_error, emit, set_world, world_append.
  cbn. rewrite <- app_assoc. reflexivity.
Qed.

Lemma main_polling config env :
  BOT_MODE config = "polling" ->
  run config env
  = match startPolling config env initial_process with
    | (Ok _, p) => (Ok RanToCompletion, p)
    | (Throw e, p) =>
        (Ok (Exited 1),
         set_world p (world_append (world p) [EvLoggerError e; EvProcessExit 1]))
    | (Never, p) => (Never, p)
    end.
Proof.
  intros Hmode. unfold run, main, try_catch. rewrite Hmode. cbn [String.eqb Ascii.eqb Bool.eqb].
  cbn [bind P_monad].
  destruct (startPolling config env initial_process) as [[[]|e|] p];
    [reflexivity| |reflexivity].
  unfold process_exit, liftM, logger_error, emit, set_world, world_append.
  cbn. rewrite <- app_assoc. reflexivity.
Qed.

Lemma main_other_mode config env :
  BOT_MODE config <> "webhook" ->
  BOT_MODE config <> "polling" ->
  run config env = (Ok RanToCompletion, initial_process).
Proof.
  intros Hw Hp. unfold run, main, try_catch.
  apply String.eqb_neq in Hw, Hp. rewrite Hw, Hp. reflexivity.
Qed.

Lemma burst_events_cases sigs flag evs :
  burst_events sigs flag evs = [] \/ burst_events sigs flag evs = shutdown_log :: evs.
Proof. unfold burst_events. destruct (nonempty sigs && negb flag); auto. Qed.

(** Splitting a list with known elements at an unknown position. *)
Ltac split_known H :=
  lazymatch type of H with
  | [] = ?pre ++ _ :: _ => destruct pre; discriminate H
  | _ :: _ = ?pre ++ _ :: _ =>
      let x := fresh "x" in
      destruct pre as [|x pre]; cbn [app] in H;
      [ injection H as ? ? | injection H as ? H; split_known H ]
  end.

(** ** Observations distribute over traces *)

Lemma startup_steps_app t1 t2 :
  startup_steps (t1 ++ t2) = startup_steps t1 ++ startup_steps t2.
Proof. apply filter_app. Qed.

Lemma startup_steps_cons e tr :
  startup_steps (e :: tr)
  = if is_startup_step e then e :: startup_steps tr else startup_steps tr.
Proof.
  unfold startup_steps. rewrite filter_cons.
  destruct (is_startup_step e); case_decide; congruence.
Qed.

Lemma error_logs_app t1 t2 : error_logs (t1 ++ t2) = error_logs t1 ++ error_logs t2.
Proof. apply omap_app. Qed.

Lemma exit_codes_app t1 t2 : exit_codes (t1 ++ t2) = exit_codes t1 ++ exit_codes t2.
Proof. apply omap_app. Qed.

(** What a burst adds is never a startup step, an error log or an exit,
    as long as the cleanup's own events are none of these. *)
Lemma startup_steps_burst sigs flag evs :
  startup_steps evs = [] -> startup_steps (burst_events sigs flag evs) = [].
Proof.
  intros H. destruct (burst_events_cases sigs flag evs) as [-> | ->]; [reflexivity|].
  rewrite startup_steps_cons. exact H.
Qed.

Lemma error_logs_burst sigs flag evs :
  error_logs evs = [] -> error_logs (burst_events sigs flag evs) = [].
Proof.
  intros H. destruct (burst_events_cases sigs flag evs) as [-> | ->]; [reflexivity|].
  exact H.
Qed.

Lemma exit_codes_burst sigs flag evs :
  exit_codes evs = [] -> exit_codes (burst_events sigs flag evs) = [].
Proof.
  intros H. destruct (burst_events_cases sigs flag evs) as [-> | ->]; [reflexivity|].
  exact H.
Qed.

Lemma error_logs_cons e tr :
  error_logs (e :: tr)
  = match e with EvLoggerError x => x :: error_logs tr | _ => error_logs tr end.
Proof. destruct e; reflexivity. Qed.

Lemma exit_codes_cons e tr :
  exit_codes (e :: tr)
  = match e with EvProcessExit c => c :: exit_codes tr | _ => exit_codes tr end.
Proof. destruct e; reflexivity. Qed.

Lemma startup_steps_nil : startup_steps [] = [].
Proof. reflexivity. Qed.

Lemma error_logs_nil : error_logs [] = [].
Proof. reflexivity. Qed.

Lemma exit_codes_nil : exit_codes [] = [].
Proof. reflexivity. Qed.

(** Normalise [startup_steps], [error_logs] and [exit_codes] of a trace
    made of known events and bursts, in hypothesis [H]. *)
Ltac observe_in H :=
  repeat first
    [ rewrite startup_steps_app in H
    | rewrite error_logs_app in H
    | rewrite exit_codes_app in H
    | rewrite startup_steps_cons in H
    | rewrite error_logs_cons in H
    | rewrite exit_codes_cons in H
    | rewrite startup_steps_nil in H
    | rewrite error_logs_nil in H
    | rewrite exit_codes_nil in H
    | rewrite startup_steps_burst in H by reflexivity
    | rewrite error_logs_burst in H by reflexivity
    | rewrite exit_codes_burst in H by reflexivity ];
  cbn [is_startup_step is_BotInit is_Serve is_SetWebhook orb app] in H.

(** Name the trace of the goal [tr] and compute its three observations. *)
Ltac observe_trace tr Htr Hsteps Herr Hexit :=
  match goal with
  | |- context [startup_steps ?T] => remember T as tr eqn:Htr
  end;
  pose proof (eq_refl (startup_steps tr)) as Hsteps;
  pose proof (eq_refl (error_logs tr)) as Herr;
  pose proof (eq_refl (exit_codes tr)) as Hexit;
  rewrite Htr in Hsteps at 2; rewrite Htr in Herr at 2; rewrite Htr in Hexit at 2;
  observe_in Hsteps; observe_in Herr; observe_in Hexit.

(** ** The webhook startup path *)

(** Normalise [startup_steps], [error_logs] and [exit_codes] of a trace
    made of known events and bursts, in the goal. *)
Ltac observe_goal :=
  repeat first
    [ rewrite startup_steps_app
    | rewrite error_logs_app
    | rewrite exit_codes_app
    | rewrite startup_steps_cons
    | rewrite error_logs_cons
    | rewrite exit_codes_cons
    | rewrite startup_steps_nil
    | rewrite error_logs_nil
    | rewrite exit_codes_nil
    | rewrite startup_steps_burst by reflexivity
    | rewrite error_logs_burst by reflexivity
    | rewrite exit_codes_burst by reflexivity ];
  cbn [is_startup_step is_BotInit is_Serve is_SetWebhook orb app].

(** C2.  With [BOT_MODE] equal to [webhook], bot and server built and
    [bot.init] resolved, the listener bind is the second step.  When
    [serve] returns its handle and the bind then fails, the listening
    callback is never called and the promise of [startServer] never
    settles: the main flow stays suspended on it.  No later step is made,
    but nothing is caught: [logger.error] is not called and
    [process.exit] is not called, whatever signals arrive.  The handle
    stays stored. *)
Theorem webhook_bind_failure_is_not_caught
    (config : Config) (env : Env) (b : bot) (srv : server) :
  BOT_MODE config = "webhook" ->
  createBot_returns env (BOT_TOKEN config) = Ok b ->
  createServer_returns env b = Ok srv ->
  init_returns env b = Ok tt ->
  serve_returns env srv (BOT_SERVER_HOST config) (BOT_SERVER_PORT config) = Never ->
  let r := fst (run config env) in
  let p := snd (run config env) in
  let tr := trace (world p) in
  r = Never
  /\ startup_steps tr
     = [EvBotInit b; EvServe srv (BOT_SERVER_HOST config) (BOT_SERVER_PORT config)]
  /\ error_logs tr = []
  /\ exit_codes tr = []
  /\ serverHandle (world p)
     = Some (serve_handle env srv (BOT_SERVER_HOST config) (BOT_SERVER_PORT config)).
Proof.
  intros Hw Hb Hs Hi Hserve. cbv zeta.
  rewrite (main_webhook config env Hw).
  rewrite (startWebhook_created config env b srv Hb Hs), Hi, Hserve.
  cbn [fst snd world set_world registered registered_in trace world_append
       serverHandle].
  split; [reflexivity|].
  split; [observe_goal; reflexivity|].
  split; [observe_goal; reflexivity|].
  split; [observe_goal; reflexivity|reflexivity].
Qed.

(** ** Closed form of [startPolling] *)

Lemma start_pending_fold env b hs flag fs w :
  fold_left
    (fun q h =>
       match h with
       | inl s => deliver s q
       | inr username =>
           snd (liftM (logger_info (bot_running_log username)) q)
       end)
    hs
    (registered_in fs [] {| isShuttingDown := flag; cleanUp := bot_stop env b |} w)
  = registered_in
      (fs ++ if has_signal hs && negb flag then rejection (stop_returns env b) else [])
      []
      {| isShuttingDown := flag || has_signal hs; cleanUp := bot_stop env b |}
      (world_append w (start_pending_events b hs flag)).
Proof.
  revert flag fs w. induction hs as [|[s|username] hs IH]; intros flag fs w.
  - cbn [fold_left has_signal existsb start_pending_events andb].
    rewrite orb_false_r, world_append_nil, app_nil_r. reflexivity.
  - cbn [fold_left start_pending_events]. rewrite deliver_registered.
    destruct flag; cbn [isShuttingDown].
    + rewrite IH. cbn [app orb negb]. rewrite !andb_false_r. reflexivity.
    + unfold fired_in. cbn [cleanUp]. rewrite IH.
      cbn [orb has_signal existsb andb negb]. rewrite andb_false_r, app_nil_r.
      f_equal. unfold world_append, bot_stop, call, logger_info, emit, shutdown_log.
      cbn [snd serverHandle trace]. rewrite <- !app_assoc. reflexivity.
  - cbn [fold_left start_pending_events]. rewrite logger_info_run. cbn [snd].
    rewrite IH. cbn [has_signal existsb orb]. f_equal.
    rewrite world_append_app. reflexivity.
Qed.

Lemma startPolling_createBot_throws config env e :
  createBot_returns env (BOT_TOKEN config) = Throw e ->
  startPolling config env initial_process
  = (Throw e,
     {| closures := []; listeners := [];
        world := {| serverHandle := None;
                    trace := [EvCreateBot (BOT_TOKEN config)] |};
        fatals := [] |}).
Proof.
  intros H. unfold startPolling.
  erewrite bindP_Throw; [reflexivity|].
  unfold initial_process. rewrite createBot_run, H. reflexivity.
Qed.

Lemma startPolling_createBot_never config env :
  createBot_returns env (BOT_TOKEN config) = Never ->
  startPolling config env initial_process
  = (Never,
     {| closures := []; listeners := [];
        world := {| serverHandle := None;
                    trace := [EvCreateBot (BOT_TOKEN config)] |};
        fatals := [] |}).
Proof.
  intros H. unfold startPolling.
  erewrite bindP_Never; [reflexivity|].
  unfold initial_process. rewrite createBot_run, H. reflexivity.
Qed.

Lemma startPolling_created config env b :
  createBot_returns env (BOT_TOKEN config) = Ok b ->
  startPolling config env initial_process
  = (start_returns env b (BOT_ALLOWED_UPDATES config),
     registered_in (start_pending_fatals env b) []
       {| isShuttingDown := has_signal (start_pending env b);
          cleanUp := bot_stop env b |}
       {| serverHandle := None;
          trace := [EvCreateBot (BOT_TOKEN config);
                    EvProcessOn SIGINT 0; EvProcessOn SIGTERM 0;
                    EvBotStart b (BOT_ALLOWED_UPDATES config)]
                   ++ start_pending_events b (start_pending env b) false |}).
Proof.
  intros Hb. unfold startPolling.
  erewrite bindP_Ok;
    [|unfold initial_process; rewrite createBot_run, Hb; reflexivity].
  erewrite bindP_Ok; [|apply onShutdown_registers].
  unfold bot_start.
  change (set_world (registered_in ?fs ?cs ?cl ?w) ?w') with (registered_in fs cs cl w').
  rewrite start_pending_fold. cbn [negb app]. rewrite andb_true_r. reflexivity.
Qed.

Lemma start_pending_events_kinds b hs flag e :
  e ∈ start_pending_events b hs flag ->
  e = shutdown_log \/ e = EvBotStop b
  \/ exists username, e = EvLoggerInfo (bot_running_log username).
Proof.
  revert flag. induction hs as [|[s|username] hs IH]; intros flag H.
  - inversion H.
  - cbn [start_pending_events] in H. apply elem_of_app in H as [H|H].
    + destruct flag; [inversion H|].
      apply elem_of_cons in H as [->|H]; [auto|].
      apply elem_of_cons in H as [->|H]; [auto|]. inversion H.
    + eauto.
  - cbn [start_pending_events] in H. apply elem_of_cons in H as [->|H]; eauto.
Qed.

Lemma count_events_none f evs :
  (forall e, e ∈ evs -> f e = false) -> count_events f evs = 0.
Proof.
  induction evs as [|e evs IH]; intros H; [reflexivity|].
  rewrite count_events_cons, (H e) by set_solver.
  rewrite IH; [reflexivity|]. intros e' He'. apply H. set_solver.
Qed.

Lemma count_events_pending f b hs flag :
  f shutdown_log = false -> f (EvBotStop b) = false ->
  (forall username, f (EvLoggerInfo (bot_running_log username)) = false) ->
  count_events f (start_pending_events b hs flag) = 0.
Proof.
  intros H1 H2 H3. apply count_events_none. intros e He.
  apply start_pending_events_kinds in He as [->|[->|[u ->]]]; auto.
Qed.

Lemma count_BotStop_pending b hs flag :
  count_events is_BotStop (start_pending_events b hs flag)
  = if has_signal hs && negb flag then 1 else 0.
Proof.
  revert flag. induction hs as [|[s|username] hs IH]; intros flag.
  - reflexivity.
  - cbn [start_pending_events has_signal existsb orb andb].
    rewrite count_events_app, IH. cbn [negb]. rewrite andb_false_r.
    destruct flag; reflexivity.
  - cbn [start_pending_events has_signal existsb orb].
    rewrite count_events_cons. cbn [is_BotStop]. apply IH.
Qed.

(** ** The polling startup path *)

(** C3.  With [BOT_MODE] equal to [polling]: every [bot.start] call in the
    run carries exactly [config.BOT_ALLOWED_UPDATES]; no [serve] call occurs
    and no server handle is ever stored; and once the bot is built,
    [bot.start] is called exactly once, on that bot, the one closure
    registered for SIGINT and SIGTERM has [bot.stop] as its cleanup, and
    that cleanup issues the [bot.stop] call. *)
Theorem polling_startup_starts_bot_without_listener (config : Config) (env : Env) :
  BOT_MODE config = "polling" ->
  let p := snd (run config env) in
  let tr := trace (world p) in
  (forall b a, EvBotStart b a ∈ tr -> a = BOT_ALLOWED_UPDATES config)
  /\ count_events is_Serve tr = 0
  /\ serverHandle (world p) = None
  /\ (forall b,
        createBot_returns env (BOT_TOKEN config) = Ok b ->
        count_events is_BotStart tr = 1
        /\ EvBotStart b (BOT_ALLOWED_UPDATES config) ∈ tr
        /\ listeners p = [(SIGINT, 0); (SIGTERM, 0)]
        /\ (cleanUp <$> closures p) = [bot_stop env b]
        /\ forall w,
             bot_stop env b w = (stop_returns env b, world_append w [EvBotStop b])).
Proof.
  intros Hmode. rewrite (main_polling config env Hmode).
  destruct (createBot_returns env (BOT_TOKEN config)) as [b|e|] eqn:Hb.
  - rewrite (startPolling_created config env b Hb).
    set (pend := start_pending_events b (start_pending env b) false).
    assert (Hpend : forall f, f shutdown_log = false -> f (EvBotStop b) = false ->
                      (forall u, f (EvLoggerInfo (bot_running_log u)) = false) ->
                      count_events f pend = 0).
    { intros f H1 H2 H3. apply count_events_pending; assumption. }
    assert (Hkinds : forall b' a, EvBotStart b' a ∈ pend -> False).
    { intros b' a H. apply start_pending_events_kinds in H as [H|[H|[u H]]];
        discriminate H. }
    assert (Hquiet : forall tl,
               (forall b' a, EvBotStart b' a ∈ tl -> False) ->
               count_events is_BotStart tl = 0 -> count_events is_Serve tl = 0 ->
               let tr := [EvCreateBot (BOT_TOKEN config);
                          EvProcessOn SIGINT 0; EvProcessOn SIGTERM 0;
                          EvBotStart b (BOT_ALLOWED_UPDATES config)] ++ pend ++ tl in
               (forall b' a, EvBotStart b' a ∈ tr -> a = BOT_ALLOWED_UPDATES config)
               /\ count_events is_Serve tr = 0
               /\ count_events is_BotStart tr = 1
               /\ EvBotStart b (BOT_ALLOWED_UPDATES config) ∈ tr).
    { intros tl Htl Hstart Hserve tr. subst tr. cbn [app]. repeat split.
      - intros b' a H. repeat (apply elem_of_cons in H as [H|H]; [try discriminate H|]).
        + injection H as _ ->. reflexivity.
        + apply elem_of_app in H as [H|H]; [destruct (Hkinds _ _ H)|].
          destruct (Htl _ _ H).
      - rewrite !count_events_cons, count_events_app, Hpend, Hserve by reflexivity.
        reflexivity.
      - rewrite !count_events_cons, count_events_app, Hpend, Hstart by reflexivity.
        reflexivity.
      - set_solver. }
    assert (Hnil : forall b' a, EvBotStart b' a ∈ @nil event -> False).
    { intros b' a H. inversion H. }
    assert (Hexit : forall e b' a,
               EvBotStart b' a ∈ [EvLoggerError e; EvProcessExit 1] -> False).
    { intros e b' a H.
      repeat (apply elem_of_cons in H as [H|H]; [discriminate H|]). inversion H. }
    destruct (start_returns env b (BOT_ALLOWED_UPDATES config)) as [[]|e|];
      cbn [fst snd world set_world registered_in trace world_append serverHandle
           closures listeners fmap list_fmap cleanUp].
    + destruct (Hquiet [] Hnil eq_refl eq_refl) as (H1 & H2 & H3 & H4).
      rewrite app_nil_r in H1, H2, H3, H4.
      split; [exact H1|]. split; [exact H2|]. split; [reflexivity|].
      intros b0 Hb0. injection Hb0 as <-. repeat split; assumption.
    + destruct (Hquiet [EvLoggerError e; EvProcessExit 1] (Hexit e) eq_refl eq_refl)
        as (H1 & H2 & H3 & H4).
      rewrite app_assoc in H1, H2, H3, H4.
      split; [exact H1|]. split; [exact H2|]. split; [reflexivity|].
      intros b0 Hb0. injection Hb0 as <-. repeat split; assumption.
    + destruct (Hquiet [] Hnil eq_refl eq_refl) as (H1 & H2 & H3 & H4).
      rewrite app_nil_r in H1, H2, H3, H4.
      split; [exact H1|]. split; [exact H2|]. split; [reflexivity|].
      intros b0 Hb0. injection Hb0 as <-. repeat split; assumption.
  - rewrite (startPolling_createBot_throws config env e Hb).
    cbn [fst snd world set_world trace world_append serverHandle app].
    split; [|split; [|split; [reflexivity|]]].
    + intros b' a H. repeat (apply elem_of_cons in H as [H|H]; [try discriminate H|]).
      inversion H.
    + reflexivity.
    + intros b0 Hb0. discriminate Hb0.
  - rewrite (startPolling_createBot_never config env Hb).
    cbn [fst snd world set_world trace world_append serverHandle app].
    split; [|split; [|split; [reflexivity|]]].
    + intros b' a H. repeat (apply elem_of_cons in H as [H|H]; [try discriminate H|]).
      inversion H.
    + reflexivity.
    + intros b0 Hb0. discriminate Hb0.
Qed.

(** ** Registration happens before the blocking calls *)

(** An event of kind [Q] cannot occur inside a prefix free of [Q]. *)
Lemma prefix_before_first {A} (Q : A -> bool) (l1 m pre : list A) y post :
  l1 ++ m = pre ++ y :: post ->
  Q y = true ->
  (forall e, e ∈ l1 -> Q e = false) ->
  exists k, pre = l1 ++ k.
Proof.
  revert pre. induction l1 as [|a l1 IH]; intros pre Heq Hy Hfree.
  - exists pre. reflexivity.
  - destruct pre as [|a' pre]; cbn [app] in Heq; injection Heq as -> Heq.
    + rewrite Hfree in Hy by set_solver. discriminate Hy.
    + destruct (IH pre Heq Hy) as [k ->]; [intros e He; apply Hfree; set_solver|].
      exists k. reflexivity.
Qed.

Lemma no_occurrence {A} (Q : A -> bool) (l pre : list A) y post :
  l = pre ++ y :: post -> Q y = true -> (forall e, e ∈ l -> Q e = false) -> False.
Proof.
  intros -> Hy Hfree. rewrite Hfree in Hy by set_solver. discriminate Hy.
Qed.

(** The blocking calls of the two startup paths. *)
Lemma registered_before (Q : event -> bool) (hd m pre post : list event) y :
  hd ++ m = pre ++ y :: post ->
  Q y = true ->
  (forall e, e ∈ hd -> Q e = false) ->
  EvProcessOn SIGINT 0 ∈ hd -> EvProcessOn SIGTERM 0 ∈ hd ->
  EvProcessOn SIGINT 0 ∈ pre /\ EvProcessOn SIGTERM 0 ∈ pre.
Proof.
  intros Heq Hy Hfree Hint Hterm.
  destruct (prefix_before_first Q hd m pre y post Heq Hy Hfree) as [k ->].
  split; apply elem_of_app; left; assumption.
Qed.

Lemma BotStop_in_pending b hs :
  has_signal hs = true -> EvBotStop b ∈ start_pending_events b hs false.
Proof.
  induction hs as [|[s|username] hs IH]; intros H.
  - discriminate H.
  - cbn [start_pending_events app]. repeat constructor.
  - cbn [start_pending_events]. constructor. apply IH. exact H.
Qed.

(** Membership in a trace whose front part is known. *)
Ltac in_known_part := cbn [app]; repeat constructor.

Ltac not_blocking :=
  let x := fresh "x" in
  let Hx := fresh "Hx" in
  intros x Hx;
  repeat (apply elem_of_cons in Hx as [->|Hx]; [reflexivity|]);
  inversion Hx.

(** C9.  In every run, a blocking call ([bot.start], [bot.init], the
    listener bind) is preceded in the trace by the registration of the
    shutdown handler for SIGINT and for SIGTERM.  So a signal that arrives
    while the startup is blocked triggers the cleanup: in polling mode a
    signal during [bot.start] makes the run call [bot.stop] exactly once;
    in webhook mode a signal during [bot.init] runs the shutdown handler,
    and so does a first signal during the bind, which closes the listener
    just created. *)
Theorem shutdown_registered_before_blocking_calls (config : Config) (env : Env) :
  let tr := trace (world (snd (run config env))) in
  (forall pre e post,
     tr = pre ++ e :: post -> is_blocking_call e = true ->
     EvProcessOn SIGINT 0 ∈ pre /\ EvProcessOn SIGTERM 0 ∈ pre)
  /\ (BOT_MODE config = "polling" ->
      forall b,
        createBot_returns env (BOT_TOKEN config) = Ok b ->
        has_signal (start_pending env b) = true ->
        count_events is_BotStop tr = 1 /\ EvBotStop b ∈ tr)
  /\ (BOT_MODE config = "webhook" ->
      forall b srv,
        createBot_returns env (BOT_TOKEN config) = Ok b ->
        createServer_returns env b = Ok srv ->
        (pending_signals env AwBotInit <> [] -> shutdown_log ∈ tr)
        /\ (forall h info,
              init_returns env b = Ok tt ->
              serve_returns env srv (BOT_SERVER_HOST config) (BOT_SERVER_PORT config)
              = Ok (h, info) ->
              pending_signals env AwBotInit = [] ->
              pending_signals env AwStartServer <> [] ->
              shutdown_log ∈ tr /\ EvServerClose h ∈ tr)).
Proof.
  cbv zeta. split; [|split].
  - (* registration first *)
    intros pre e post Heq He.
    destruct (decide (BOT_MODE config = "webhook")) as [Hw|Hw];
      [|destruct (decide (BOT_MODE config = "polling")) as [Hp|Hp]].
    + rewrite (main_webhook config env Hw) in Heq.
      destruct (createBot_returns env (BOT_TOKEN config)) as [b|e0|] eqn:Hb;
        [destruct (createServer_returns env b) as [srv|e0|] eqn:Hs| |].
      * rewrite (startWebhook_created config env b srv Hb Hs) in Heq.
        destruct (init_returns env b) as [[]|e1|];
          [destruct (serve_returns env srv _ _) as [[h info]|e2|];
           [destruct (setWebhook_returns env b _ _ _) as [[]|e3|]| |]| |];
          cbn [fst snd world set_world registered registered_in trace
               world_append app] in Heq;
          (eapply (registered_before is_blocking_call
                     [EvCreateBot (BOT_TOKEN config); EvCreateServer b;
                      EvProcessOn SIGINT 0; EvProcessOn SIGTERM 0]);
           [rewrite <- Heq; reflexivity|exact He|not_blocking
           |in_known_part|in_known_part]).
      * rewrite (startWebhook_createServer_throws config env b e0 Hb Hs) in Heq.
        destruct (no_occurrence is_blocking_call _ _ _ _ Heq He). not_blocking.
      * rewrite (startWebhook_createServer_never config env b Hb Hs) in Heq.
        destruct (no_occurrence is_blocking_call _ _ _ _ Heq He). not_blocking.
      * rewrite (startWebhook_createBot_throws config env e0 Hb) in Heq.
        destruct (no_occurrence is_blocking_call _ _ _ _ Heq He). not_blocking.
      * rewrite (startWebhook_createBot_never config env Hb) in Heq.
        destruct (no_occurrence is_blocking_call _ _ _ _ Heq He). not_blocking.
    + rewrite (main_polling config env Hp) in Heq.
      destruct (createBot_returns env (BOT_TOKEN config)) as [b|e0|] eqn:Hb.
      * rewrite (startPolling_created config env b Hb) in Heq.
        destruct (start_returns env b _) as [[]|e1|];
          cbn [fst snd world set_world registered_in trace world_append app] in Heq;
          (eapply (registered_before is_blocking_call
                     [EvCreateBot (BOT_TOKEN config);
                      EvProcessOn SIGINT 0; EvProcessOn SIGTERM 0]);
           [rewrite <- Heq; reflexivity|exact He|not_blocking
           |in_known_part|in_known_part]).
      * rewrite (startPolling_createBot_throws config env e0 Hb) in Heq.
        destruct (no_occurrence is_blocking_call _ _ _ _ Heq He). not_blocking.
      * rewrite (startPolling_createBot_never config env Hb) in Heq.
        destruct (no_occurrence is_blocking_call _ _ _ _ Heq He). not_blocking.
    + rewrite (main_other_mode config env Hw Hp) in Heq.
      destruct pre; discriminate Heq.
  - (* polling: a signal during bot.start *)
    intros Hp b Hb Hsig. rewrite (main_polling config env Hp).
    rewrite (startPolling_created config env b Hb).
    pose proof (count_BotStop_pending b (start_pending env b) false) as Hcount.
    rewrite Hsig in Hcount. cbn [andb negb] in Hcount.
    pose proof (BotStop_in_pending b (start_pending env b) Hsig) as Hin.
    destruct (start_returns env b _) as [[]|e1|];
      cbn [fst snd world set_world registered_in trace world_append];
      rewrite ?count_events_app, !count_events_cons, ?count_events_app, Hcount;
      cbn [is_BotStop]; (split; [reflexivity|]);
      rewrite ?elem_of_app; repeat (rewrite elem_of_cons); rewrite ?elem_of_app;
      tauto.
  - (* webhook: a signal during bot.init or during the bind *)
    intros Hw b srv Hb Hs. rewrite (main_webhook config env Hw).
    rewrite (startWebhook_created config env b srv Hb Hs). split.
    + intros Hs1.
      destruct (pending_signals env AwBotInit) as [|s s1]; [congruence|].
      destruct (init_returns env b) as [[]|e1|];
        [destruct (serve_returns env srv _ _) as [[h info]|e2|];
         [destruct (setWebhook_returns env b _ _ _) as [[]|e3|]| |]| |];
        cbn [fst snd world set_world registered registered_in trace world_append
             app burst_events nonempty andb negb];
        in_known_part.
    + intros h info Hi Hserve Hs1 Hs2. rewrite Hi, Hserve, Hs1.
      destruct (pending_signals env AwStartServer) as [|s s2]; [congruence|].
      destruct (setWebhook_returns env b _ _ _) as [[]|e3|];
        cbn [fst snd world set_world registered registered_in trace world_append
             app burst_events nonempty andb negb];
        split; in_known_part.
Qed.

(** ** The [Server started] URL *)

Lemma server_started_log_fields url :
  exists o, server_started_log url = JObj o
            /\ o !! "url" = Some (JStr url)
            /\ o !! "msg" = Some (JStr "Server started").
Proof.
  eexists. split; [reflexivity|]. split.
  - apply lookup_insert_eq.
  - rewrite lookup_insert_ne by discriminate. apply lookup_insert_eq.
Qed.

(** C4.  The URL of the [Server started] log line is
    [http://[address]:port] when the family is [IPv6] and
    [http://address:port] for every other family, the port in decimal; the
    two sample binds give [http://127.0.0.1:3000] and [http://[::1]:3000];
    and a webhook run whose listener reports [info] logs an object whose
    [url] property is that string. *)
Theorem server_started_url_format :
  (forall info,
     family info = "IPv6" ->
     server_url info
     = "http://[" +:+ address info +:+ "]:" +:+ string_of_N (port info))
  /\ (forall info,
        family info <> "IPv6" ->
        server_url info
        = "http://" +:+ address info +:+ ":" +:+ string_of_N (port info))
  /\ server_url {| address := "127.0.0.1"; family := "IPv4"; port := 3000 |}
     = "http://127.0.0.1:3000"
  /\ server_url {| address := "::1"; family := "IPv6"; port := 3000 |}
     = "http://[::1]:3000"
  /\ (forall config env b srv h info,
        BOT_MODE config = "webhook" ->
        createBot_returns env (BOT_TOKEN config) = Ok b ->
        createServer_returns env b = Ok srv ->
        init_returns env b = Ok tt ->
        serve_returns env srv (BOT_SERVER_HOST config) (BOT_SERVER_PORT config)
        = Ok (h, info) ->
        exists o,
          EvLoggerInfo (JObj o) ∈ trace (world (snd (run config env)))
          /\ o !! "msg" = Some (JStr "Server started")
          /\ o !! "url" = Some (JStr (server_url info))).
Proof.
  split; [|split; [|split; [|split]]].
  - intros info H. unfold server_url. rewrite H. reflexivity.
  - intros info H. unfold server_url.
    apply String.eqb_neq in H. rewrite H. reflexivity.
  - reflexivity.
  - reflexivity.
  - intros config env b srv h info Hw Hb Hs Hi Hserve.
    destruct (server_started_log_fields (server_url info)) as (o & Ho & Hurl & Hmsg).
    exists o. split; [|split; assumption].
    rewrite <- Ho, (main_webhook config env Hw).
    rewrite (startWebhook_created config env b srv Hb Hs), Hi, Hserve.
    destruct (setWebhook_returns env b _ _ _) as [[]|e3|];
      cbn [fst snd world set_world registered registered_in trace world_append];
      rewrite !elem_of_app, !elem_of_cons; intuition reflexivity.
Qed.

(** ** The [/start] handler *)

Lemma js_or_empty (a : option string) :
  js_or a EmptyString = match a with Some s => s | None => EmptyString end.
Proof. destruct a as [[|c s]|]; reflexivity. Qed.

(** C5.  For a [/start] command in a private chat with a sender, the
    feature logs the handler id and then replies with
    [ctx.t("start.register", { name })], where [name] is the sender's
    username when there is one and the empty string when there is none;
    the chain's [next] is not used. *)
Theorem start_command_replies_with_username
    (env : Env) (ctx : Context) (next : M unit) (w : World) (user : User) :
  chat ctx = Some private ->
  command ctx = Some "start" ->
  from ctx = Some user ->
  let replies_with (name : string) :=
    let text := t ctx "start.register" (<["name" := JStr name]> ∅) in
    welcomeFeature env ctx next w
    = (reply_returns env text,
       world_append w
         [EvLoggerInfo (JObj (logHandle_event "command-start" ctx));
          EvReply text]) in
  (forall name, username user = Some name -> replies_with name)
  /\ (username user = None -> replies_with EmptyString).
Proof.
  intros Hchat Hcmd Hfrom replies_with.
  assert (H : replies_with (js_or (username user) EmptyString)).
  { unfold replies_with, welcomeFeature, chatType, on_command.
    rewrite Hchat, Hcmd. rewrite !decide_True by reflexivity.
    cbn [compose]. unfold start_handler. rewrite Hfrom.
    unfold logHandle, reply, call, logger_info, emit, world_append.
    cbn [bind M_monad snd serverHandle trace].
    rewrite <- app_assoc. reflexivity. }
  rewrite js_or_empty in H. split.
  - intros name Hname. rewrite Hname in H. exact H.
  - intros Hnone. rewrite Hnone in H. exact H.
Qed.

(** ** The logging helper *)

Lemma prefix_iff_append (p s : string) :
  String.prefix p s = true <-> exists rest, s = p +:+ rest.
Proof.
  revert s. induction p as [|a p IH]; intros s.
  - split; [intros _; exists s; reflexivity|destruct s; reflexivity].
  - destruct s as [|c s]; cbn [String.prefix].
    + split; [discriminate|intros [rest H]; discriminate H].
    + destruct (Ascii.ascii_dec a c) as [->|Hne].
      * rewrite IH. split; intros [rest H]; exists rest.
        -- cbn. rewrite H. reflexivity.
        -- cbn in H. injection H as H. exact H.
      * split; [discriminate|]. intros [rest H]. cbn in H.
        injection H as H _. congruence.
Qed.

Lemma logHandle_runs_next id ctx (next : M unit) w :
  logHandle id ctx next w
  = next (world_append w [EvLoggerInfo (JObj (logHandle_event id ctx))]).
Proof. reflexivity. Qed.

Lemma logHandle_event_msg id ctx :
  logHandle_event id ctx !! "msg"
  = Some (JStr ("Handle " +:+ dquote +:+ id +:+ dquote)).
Proof.
  unfold logHandle_event, spread. rewrite lookup_union_r.
  - apply lookup_insert_eq.
  - destruct (String.prefix "unhandled" id).
    + apply lookup_singleton_ne. discriminate.
    + apply lookup_empty.
Qed.

Lemma logHandle_event_update id ctx :
  logHandle_event id ctx !! "update"
  = if String.prefix "unhandled" id then Some (JObj (getUpdateInfo ctx)) else None.
Proof.
  unfold logHandle_event, spread. destruct (String.prefix "unhandled" id).
  - apply lookup_union_Some_l. apply lookup_singleton_eq.
  - rewrite lookup_union_r by apply lookup_empty.
    rewrite lookup_insert_ne by discriminate. apply lookup_empty.
Qed.

(** C6.  The middleware [logHandle(id)] hands [ctx.logger.info] one object:
    its [msg] is [Handle "id"], which contains [id]; it has an [update]
    property, holding [ctx.update] without [update_id] and with every other
    property unchanged, exactly when [id] starts with [unhandled]; so it
    has one for [unhandled-update] and none for [command-start]. *)
Theorem logHandle_event_content (id : string) (ctx : Context) :
  let ev := logHandle_event id ctx in
  (forall next w,
     exists w', logHandle id ctx next w = next w'
                /\ trace w' = trace w ++ [EvLoggerInfo (JObj ev)])
  /\ ev !! "msg" = Some (JStr ("Handle " +:+ dquote +:+ id +:+ dquote))
  /\ contains ("Handle " +:+ dquote +:+ id +:+ dquote) id
  /\ (ev !! "update" = Some (JObj (getUpdateInfo ctx))
      <-> exists rest, id = "unhandled" +:+ rest)
  /\ ((~ exists rest, id = "unhandled" +:+ rest) -> ev !! "update" = None)
  /\ getUpdateInfo ctx !! "update_id" = None
  /\ (forall k, k <> "update_id" -> getUpdateInfo ctx !! k = update ctx !! k)
  /\ logHandle_event "unhandled-update" ctx !! "update"
     = Some (JObj (getUpdateInfo ctx))
  /\ logHandle_event "command-start" ctx !! "update" = None.
Proof.
  cbv zeta. split; [|split; [|split; [|split; [split|split; [|split; [|split; [|split]]]]]]].
  - intros next w. eexists. split; [apply logHandle_runs_next|reflexivity].
  - apply logHandle_event_msg.
  - exists ("Handle " +:+ dquote), dquote. reflexivity.
  - rewrite logHandle_event_update, <- prefix_iff_append.
    destruct (String.prefix "unhandled" id); [reflexivity|discriminate].
  - rewrite logHandle_event_update, <- prefix_iff_append.
    intros ->. reflexivity.
  - rewrite <- prefix_iff_append. intros H. rewrite logHandle_event_update.
    destruct (String.prefix "unhandled" id); [contradiction H; reflexivity|reflexivity].
  - apply lookup_delete_eq.
  - intros k Hk. apply lookup_delete_ne. congruence.
  - rewrite logHandle_event_update. reflexivity.
  - rewrite logHandle_event_update. reflexivity.
Qed.

(** C7.  For every id, context and [next], running the middleware is
    running [next] once on the world that follows the log event: its result
    and its effects are those of that one call; and when [next] is a
    recorded call, the trace gains exactly one occurrence of it. *)
Theorem logHandle_calls_next_once (id : string) (ctx : Context) (w : World) :
  (forall next : M unit,
     logHandle id ctx next w
     = next (world_append w [EvLoggerInfo (JObj (logHandle_event id ctx))]))
  /\ (forall (e : event) (answer : result unit) (f : event -> bool),
        f e = true ->
        f (EvLoggerInfo (JObj (logHandle_event id ctx))) = false ->
        fst (logHandle id ctx (call e answer) w) = answer
        /\ count_events f (trace (snd (logHandle id ctx (call e answer) w)))
           = S (count_events f (trace w))).
Proof.
  split.
  - intros next. apply logHandle_runs_next.
  - intros e answer f He Hlog. rewrite logHandle_runs_next.
    unfold call. cbn [fst snd]. split; [reflexivity|].
    rewrite trace_emit. unfold world_append. cbn [trace].
    rewrite !count_events_app, !count_events_cons, !count_events_nil, He, Hlog.
    lia.
Qed.

(** ** Closing a listener that was never started *)

(** C8.  When no server handle is stored, [stopServer] resolves at once and
    leaves the world as it is; a shutdown that fires in that state adds the
    [Shutdown] log line and nothing else. *)
Theorem stopServer_without_handle_is_noop (w : World) :
  serverHandle w = None ->
  stopServer w = (Ok tt, w)
  /\ forall cs,
       fired cs {| isShuttingDown := false; cleanUp := stopServer |} w
       = registered cs {| isShuttingDown := true; cleanUp := stopServer |}
           (world_append w [shutdown_log]).
Proof.
  intros H. split.
  - unfold stopServer. rewrite H. reflexivity.
  - intros cs. unfold fired, fired_in, registered. cbn [cleanUp].
    change (snd (logger_info (JStr "Shutdown") w))
      with (world_append w [shutdown_log]).
    rewrite stopServer_run. cbn [fst snd world_append serverHandle rejection app].
    rewrite H, world_append_nil. reflexivity.
Qed.

(** ** Any other mode *)

(** C10.  When [BOT_MODE] is neither [webhook] nor [polling], the run does
    nothing: no call is issued, no closure and no listener is registered,
    no server handle is stored, [process.exit] is not called; the module
    runs to its end, so the exit code is 0 and not 1. *)
Theorem other_mode_starts_nothing (config : Config) (env : Env) :
  BOT_MODE config <> "webhook" ->
  BOT_MODE config <> "polling" ->
  let p := snd (run config env) in
  trace (world p) = []
  /\ closures p = [] /\ listeners p = []
  /\ serverHandle (world p) = None
  /\ exists t, fst (run config env) = Ok t
               /\ t = RanToCompletion
               /\ exit_code t = 0%Z /\ exit_code t <> 1%Z.
Proof.
  intros Hw Hp. rewrite (main_other_mode config env Hw Hp).
  repeat split. exists RanToCompletion. repeat split. discriminate.
Qed.

(** * Instances on sample runs *)

Lemma onShutdown_cleanup_once_witness :
  count_events is_BotStop
    (trace (world (deliver_all [SIGINT; SIGTERM; SIGINT]
                     (snd (onShutdown (call (EvBotStop 7) (Ok tt))
                             initial_process)))))
  = 1.
Proof.
  pose proof (onShutdown_cleanup_once_on_first_signal
                (call (EvBotStop 7) (Ok tt)) [] initial_world []
                SIGINT [SIGTERM; SIGINT]) as H.
  cbv zeta in H. destruct H as (_ & _ & _ & _ & _ & H).
  exact (H (EvBotStop 7) (Ok tt) is_BotStop eq_refl eq_refl eq_refl).
Defined.

Lemma webhook_bind_failure_witness :
  BOT_MODE (sample_config "webhook") = "webhook"
  /\ serve_returns (bind_fails_env quiet) 8 "127.0.0.1" 3000 = Never
  /\ fst (run (sample_config "webhook") (bind_fails_env quiet)) = Never
  /\ error_logs (trace (world (snd (run (sample_config "webhook")
                                       (bind_fails_env quiet)))))
     = []
  /\ exit_codes (trace (world (snd (run (sample_config "webhook")
                                       (bind_fails_env quiet)))))
     = [].
Proof.
  split; [reflexivity|]. split; [reflexivity|].
  destruct (webhook_bind_failure_is_not_caught
              (sample_config "webhook") (bind_fails_env quiet) 7 8
              eq_refl eq_refl eq_refl eq_refl eq_refl)
    as (Hr & _ & Herr & Hexit & _).
  repeat split; assumption.
Defined.

Lemma polling_startup_witness :
  BOT_MODE (sample_config "polling") = "polling"
  /\ count_events is_BotStart
       (trace (world (snd (run (sample_config "polling")
                             (sample_env [SIGTERM] quiet)))))
     = 1
  /\ count_events is_Serve
       (trace (world (snd (run (sample_config "polling")
                             (sample_env [SIGTERM] quiet)))))
     = 0.
Proof.
  split; [reflexivity|].
  destruct (polling_startup_starts_bot_without_listener
              (sample_config "polling") (sample_env [SIGTERM] quiet) eq_refl)
    as (_ & Hserve & _ & H).
  destruct (H 7 eq_refl) as (Hstart & _).
  split; assumption.
Defined.

Lemma server_started_url_witness :
  family ipv6_info = "IPv6"
  /\ server_url ipv6_info
     = "http://[" +:+ address ipv6_info +:+ "]:" +:+ string_of_N (port ipv6_info)
  /\ exists o,
       EvLoggerInfo (JObj o)
       ∈ trace (world (snd (run (sample_config "webhook") (sample_env [] quiet))))
       /\ o !! "url" = Some (JStr "http://127.0.0.1:3000").
Proof.
  destruct server_started_url_format as (H6 & _ & _ & _ & Hlog).
  split; [reflexivity|]. split; [exact (H6 ipv6_info eq_refl)|].
  destruct (Hlog (sample_config "webhook") (sample_env [] quiet) 7 8 9 ipv4_info
              eq_refl eq_refl eq_refl eq_refl eq_refl) as (o & Hin & _ & Hurl).
  exists o. split; assumption.
Defined.

Lemma start_command_witness :
  welcomeFeature (sample_env [] quiet) (sample_ctx private (Some "alice"))
    (ret tt) initial_world
  = (Ok tt,
     world_append initial_world
       [EvLoggerInfo
          (JObj (logHandle_event "command-start" (sample_ctx private (Some "alice"))));
        EvReply "start.register(alice)"]).
Proof.
  destruct (start_command_replies_with_username
              (sample_env [] quiet) (sample_ctx private (Some "alice"))
              (ret tt) initial_world {| username := Some "alice" |}
              eq_refl eq_refl eq_refl) as (H & _).
  exact (H "alice" eq_refl).
Defined.

Lemma logHandle_event_witness :
  logHandle_event "command-start" (sample_ctx private None) !! "update" = None
  /\ getUpdateInfo (sample_ctx private None) !! "message" = Some (JStr "/start").
Proof.
  destruct (logHandle_event_content "command-start" (sample_ctx private None))
    as (_ & _ & _ & _ & Hnone & _ & Hkeep & _).
  split.
  - apply Hnone. intros [rest H]. discriminate H.
  - rewrite (Hkeep "message") by discriminate. reflexivity.
Defined.

Lemma logHandle_calls_next_witness :
  count_events (fun e => match e with EvReply _ => true | _ => false end)
    (trace (snd (logHandle "command-start" (sample_ctx private None)
                   (call (EvReply "hello") (Ok tt)) initial_world)))
  = 1.
Proof.
  destruct (logHandle_calls_next_once "command-start" (sample_ctx private None)
              initial_world) as (_ & H).
  destruct (H (EvReply "hello") (Ok tt)
              (fun e => match e with EvReply _ => true | _ => false end)
              eq_refl eq_refl) as (_ & Hcount).
  exact Hcount.
Defined.

Lemma stopServer_without_handle_witness :
  serverHandle initial_world = None
  /\ stopServer initial_world = (Ok tt, initial_world).
Proof.
  split; [reflexivity|].
  destruct (stopServer_without_handle_is_noop initial_world eq_refl) as (H & _).
  exact H.
Defined.

Lemma shutdown_registered_witness :
  count_events is_BotStop
    (trace (world (snd (run (sample_config "polling")
                          (sample_env [SIGINT] quiet)))))
  = 1.
Proof.
  destruct (shutdown_registered_before_blocking_calls
              (sample_config "polling") (sample_env [SIGINT] quiet))
    as (_ & H & _).
  destruct (H eq_refl 7 eq_refl eq_refl) as (Hcount & _).
  exact Hcount.
Defined.

Lemma other_mode_witness :
  fst (run (sample_config "serverless") (sample_env [] quiet)) = Ok RanToCompletion
  /\ trace (world (snd (run (sample_config "serverless") (sample_env [] quiet)))) = [].
Proof.
  assert (Hw : BOT_MODE (sample_config "serverless") <> "webhook") by discriminate.
  assert (Hp : BOT_MODE (sample_config "serverless") <> "polling") by discriminate.
  destruct (other_mode_starts_nothing
              (sample_config "serverless") (sample_env [] quiet) Hw Hp)
    as (Htr & _ & _ & _ & t & Hr & -> & _).
  split; assumption.
Defined.

(** * Further properties *)

(** ** All the runs, case by case *)

(** Replace [run config env] in the goal by its closed form, one goal per
    way the startup can go. *)
Ltac webhook_leaves config env Hw :=
  rewrite (main_webhook config env Hw);
  destruct (createBot_returns env (BOT_TOKEN config)) as [b|e0|] eqn:Hb;
  [ destruct (createServer_returns env b) as [srv|e0|] eqn:Hs;
    [ rewrite (startWebhook_created config env b srv Hb Hs);
      destruct (init_returns env b) as [[]|e1|] eqn:Hi;
      [ destruct (serve_returns env srv (BOT_SERVER_HOST config)
                    (BOT_SERVER_PORT config)) as [[h info]|e2|] eqn:Hserve;
        [ destruct (setWebhook_returns env b (BOT_WEBHOOK config)
                      (BOT_ALLOWED_UPDATES config) (BOT_WEBHOOK_SECRET config))
            as [[]|e3|] eqn:Hset | | ] | | ]
    | rewrite (startWebhook_createServer_throws config env b e0 Hb Hs)
    | rewrite (startWebhook_createServer_never config env b Hb Hs) ]
  | rewrite (startWebhook_createBot_throws config env e0 Hb)
  | rewrite (startWebhook_createBot_never config env Hb) ];
  cbn [fst snd world set_world registered registered_in trace world_append
       closures listeners serverHandle fatals].

Ltac polling_leaves config env Hp :=
  rewrite (main_polling config env Hp);
  destruct (createBot_returns env (BOT_TOKEN config)) as [b|e0|] eqn:Hb;
  [ rewrite (startPolling_created config env b Hb);
    destruct (start_returns env b (BOT_ALLOWED_UPDATES config)) as [[]|e1|] eqn:Hstart
  | rewrite (startPolling_createBot_throws config env e0 Hb)
  | rewrite (startPolling_createBot_never config env Hb) ];
  cbn [fst snd world set_world registered registered_in trace world_append
       closures listeners serverHandle fatals].

Ltac run_leaves config env :=
  let Hw := fresh "Hw" in
  let Hp := fresh "Hp" in
  destruct (decide (BOT_MODE config = "webhook")) as [Hw|Hw];
  [ webhook_leaves config env Hw
  | destruct (decide (BOT_MODE config = "polling")) as [Hp|Hp];
    [ polling_leaves config env Hp
    | rewrite (main_other_mode config env Hw Hp);
      cbn [fst snd world trace closures listeners serverHandle fatals
           initial_process initial_world] ] ].

(** ** Counting over bursts and over what is pending during [bot.start] *)

Lemma count_events_burst f sigs flag evs :
  count_events f (burst_events sigs flag evs)
  = if nonempty sigs && negb flag
    then count_events f (shutdown_log :: evs)
    else 0.
Proof. unfold burst_events. destruct (nonempty sigs && negb flag); reflexivity. Qed.

Lemma count_events_start_pending f b hs flag :
  (forall username, f (EvLoggerInfo (bot_running_log username)) = false) ->
  count_events f (start_pending_events b hs flag)
  = if has_signal hs && negb flag
    then count_events f [shutdown_log; EvBotStop b]
    else 0.
Proof.
  intros Hlog. revert flag. induction hs as [|[s|username] hs IH]; intros flag.
  - reflexivity.
  - cbn [start_pending_events has_signal existsb orb andb].
    rewrite count_events_app, IH. cbn [negb]. rewrite andb_false_r.
    destruct flag; cbn [negb]; [reflexivity|lia].
  - cbn [start_pending_events has_signal existsb orb].
    rewrite count_events_cons, Hlog. apply IH.
Qed.

(** Normalise a count over a trace made of known events, bursts and what
    is pending during [bot.start]. *)
Ltac count_trace :=
  repeat first
    [ rewrite count_events_app
    | rewrite count_events_cons
    | rewrite count_events_nil
    | rewrite count_events_burst
    | rewrite count_events_start_pending by reflexivity ];
  cbn [is_shutdown_log is_BotStop is_ServerClose is_ProcessOn is_BotStart
       is_Serve is_BotInit is_SetWebhook is_Reply shutdown_log
       bot_running_log server_started_log webhook_set_log String.eqb
       Ascii.eqb Bool.eqb].

Ltac case_flags :=
  repeat match goal with
    | |- context [nonempty ?l] => destruct (nonempty l)
    | |- context [has_signal ?l] => destruct (has_signal l)
    end;
  cbn [andb negb orb Nat.add].

(** ** The latch over a whole run *)

(** X1.  In every run, whatever the mode, the answers of the collaborators and
    the signals: the shutdown handler gets past its flag at most once, and
    every cleanup call ([bot.stop], closing the listener) belongs to such a
    passage, so there is at most one in the run. *)
Theorem shutdown_fires_at_most_once_per_run (config : Config) (env : Env) :
  let tr := trace (world (snd (run config env))) in
  count_events is_shutdown_log tr <= 1
  /\ count_events is_BotStop tr + count_events is_ServerClose tr
     <= count_events is_shutdown_log tr.
Proof.
  cbv zeta. run_leaves config env; count_trace; case_flags; lia.
Qed.

Lemma error_logs_start_pending b hs flag :
  error_logs (start_pending_events b hs flag) = [].
Proof.
  revert flag. induction hs as [|[s|username] hs IH]; intros flag.
  - reflexivity.
  - cbn [start_pending_events]. rewrite error_logs_app, IH.
    destruct flag; reflexivity.
  - cbn [start_pending_events]. rewrite error_logs_cons. apply IH.
Qed.

Lemma exit_codes_start_pending b hs flag :
  exit_codes (start_pending_events b hs flag) = [].
Proof.
  revert flag. induction hs as [|[s|username] hs IH]; intros flag.
  - reflexivity.
  - cbn [start_pending_events]. rewrite exit_codes_app, IH.
    destruct flag; reflexivity.
  - cbn [start_pending_events]. rewrite exit_codes_cons. apply IH.
Qed.

(** Normalise [error_logs] and [exit_codes] in the goal. *)
Ltac observe_errors :=
  repeat first
    [ rewrite error_logs_app
    | rewrite exit_codes_app
    | rewrite error_logs_cons
    | rewrite exit_codes_cons
    | rewrite error_logs_nil
    | rewrite exit_codes_nil
    | rewrite error_logs_burst by reflexivity
    | rewrite exit_codes_burst by reflexivity
    | rewrite error_logs_start_pending
    | rewrite exit_codes_start_pending ];
  cbn [app].

(** ** How a run ends *)

(** X2.  In every run, whatever the mode, the main flow ends in one of
    three ways and the top level never throws.  Either the module runs to
    its end, and then neither [logger.error] nor [process.exit] was called;
    or exactly one error was logged, and then [process.exit(1)] is the
    last call of the run and comes right after that log line; or the main
    flow never comes back from a call (its promise does not settle, or the
    process ends during the wait), and then neither [logger.error] nor
    [process.exit] was called. *)
Theorem run_ends_in_one_of_three_ways (config : Config) (env : Env) :
  let r := fst (run config env) in
  let tr := trace (world (snd (run config env))) in
  (r = Ok RanToCompletion /\ error_logs tr = [] /\ exit_codes tr = [])
  \/ (exists e tr0,
        r = Ok (Exited 1)
        /\ tr = tr0 ++ [EvLoggerError e; EvProcessExit 1]
        /\ error_logs tr = [e] /\ exit_codes tr = [1%Z])
  \/ (r = Never /\ error_logs tr = [] /\ exit_codes tr = []).
Proof.
  cbv zeta. run_leaves config env;
    first
      [ left; repeat split; observe_errors; reflexivity
      | right; left; eexists _, _;
        split; [reflexivity|split; [reflexivity|split; observe_errors; reflexivity]]
      | right; right; repeat split; observe_errors; reflexivity ].
Qed.

(** ** The webhook startup, step by step *)

(** A step that did not resolve contradicts [Hall], which says every step
    did. *)
Ltac refute_step Hall X :=
  let Hc := fresh "Hc" in
  assert (Hc : step_answer _ X = Ok tt) by (apply Hall; set_solver);
  cbn [step_answer] in Hc;
  repeat match goal with
    | H : _ = Throw _ |- _ => rewrite H in Hc
    | H : _ = Never |- _ => rewrite H in Hc
    end;
  discriminate Hc.

(** X16.  With [BOT_MODE] equal to [webhook]: the startup steps that occur
    are, in this order, [bot.init], the listener bind and the [setWebhook]
    call carrying the configured URL, allowed-update list and secret.  A
    step that throws or rejects is the last step of the run, its error is
    the only one handed to [logger.error], and the run ends with that log
    line followed by [process.exit(1)].  A step that never answers is the
    last step too, but then nothing is logged as an error and
    [process.exit] is not called.  When bot and server were built and every
    step resolves, all three steps are performed and the module runs to its
    end. *)
Theorem webhook_startup_steps_in_order (config : Config) (env : Env) :
  BOT_MODE config = "webhook" ->
  let r := fst (run config env) in
  let tr := trace (world (snd (run config env))) in
  (exists b srv,
     startup_steps tr `prefix_of`
       [EvBotInit b;
        EvServe srv (BOT_SERVER_HOST config) (BOT_SERVER_PORT config);
        EvSetWebhook b (BOT_WEBHOOK config) (BOT_ALLOWED_UPDATES config)
          (BOT_WEBHOOK_SECRET config)])
  /\ (forall pre X post e,
        startup_steps tr = pre ++ X :: post -> step_answer env X = Throw e ->
        post = [] /\ r = Ok (Exited 1) /\ error_logs tr = [e]
        /\ exit_codes tr = [1%Z]
        /\ exists tr0, tr = tr0 ++ [EvLoggerError e; EvProcessExit 1])
  /\ (forall pre X post,
        startup_steps tr = pre ++ X :: post -> step_answer env X = Never ->
        post = [] /\ r = Never /\ error_logs tr = [] /\ exit_codes tr = [])
  /\ (forall b srv,
        createBot_returns env (BOT_TOKEN config) = Ok b ->
        createServer_returns env b = Ok srv ->
        (forall X, X ∈ startup_steps tr -> step_answer env X = Ok tt) ->
        startup_steps tr
        = [EvBotInit b;
           EvServe srv (BOT_SERVER_HOST config) (BOT_SERVER_PORT config);
           EvSetWebhook b (BOT_WEBHOOK config) (BOT_ALLOWED_UPDATES config)
             (BOT_WEBHOOK_SECRET config)]
        /\ r = Ok RanToCompletion /\ error_logs tr = [] /\ exit_codes tr = []).
Proof.
  intros Hw. cbv zeta. webhook_leaves config env Hw.
  all: observe_trace tr Htr Hsteps Herr Hexit.
  all: rewrite Hsteps.
  all: split;
    [first [ exists b, srv; eexists; cbn [app]; reflexivity
           | exists 0, 0; apply prefix_nil ]|].
  all: split;
    [intros pre X post e Hsplit Hans; split_known Hsplit; subst X;
     cbn [step_answer] in Hans; rewrite ?Hi, ?Hserve, ?Hset in Hans;
     try discriminate Hans; injection Hans as <-; subst post;
     repeat split; try assumption; try reflexivity;
     rewrite Htr; eexists; reflexivity|].
  all: split;
    [intros pre X post Hsplit Hans; split_known Hsplit; subst X;
     cbn [step_answer] in Hans; rewrite ?Hi, ?Hserve, ?Hset in Hans;
     try discriminate Hans; subst post;
     repeat split; try assumption; reflexivity|].
  all: intros b0 srv0 Hb0 Hs0 Hall; try discriminate Hb0; injection Hb0 as <-;
    rewrite ?Hs in Hs0; try discriminate Hs0; injection Hs0 as <-.
  all: first
         [ repeat split; (assumption || reflexivity)
         | exfalso; refute_step Hall (EvBotInit b)
         | exfalso;
           refute_step Hall
             (EvServe srv (BOT_SERVER_HOST config) (BOT_SERVER_PORT config))
         | exfalso;
           refute_step Hall
             (EvSetWebhook b (BOT_WEBHOOK config) (BOT_ALLOWED_UPDATES config)
                (BOT_WEBHOOK_SECRET config)) ].
Qed.

Lemma webhook_startup_steps_witness :
  BOT_MODE (sample_config "webhook") = "webhook"
  /\ fst (run (sample_config "webhook") init_fails_env) = Ok (Exited 1)
  /\ error_logs (trace (world (snd (run (sample_config "webhook") init_fails_env))))
     = ["401: Unauthorized"].
Proof.
  split; [reflexivity|].
  destruct (webhook_startup_steps_in_order
              (sample_config "webhook") init_fails_env eq_refl)
    as (_ & H & _).
  destruct (H [] (EvBotInit 7) [] "401: Unauthorized" eq_refl eq_refl)
    as (_ & Hr & Herr & _).
  split; assumption.
Defined.

(** ** Failures of the polling startup *)

(** X3.  With [BOT_MODE] equal to [polling]: if [createBot] throws, nothing is
    registered and nothing is started, the error is logged and the process
    exits with code 1; if [bot.start] rejects, its error is the one logged,
    after the one [bot.start] call, and the process exits with code 1; if
    it resolves, the module runs to its end without any error log.  What
    [bot.stop] answers inside the shutdown handler changes none of this. *)
Theorem polling_startup_failure_exits_1 (config : Config) (env : Env) :
  BOT_MODE config = "polling" ->
  let r := fst (run config env) in
  let p := snd (run config env) in
  let tr := trace (world p) in
  (forall e,
     createBot_returns env (BOT_TOKEN config) = Throw e ->
     r = Ok (Exited 1)
     /\ tr = [EvCreateBot (BOT_TOKEN config); EvLoggerError e; EvProcessExit 1]
     /\ listeners p = [] /\ closures p = [])
  /\ (forall b e,
        createBot_returns env (BOT_TOKEN config) = Ok b ->
        start_returns env b (BOT_ALLOWED_UPDATES config) = Throw e ->
        r = Ok (Exited 1) /\ error_logs tr = [e] /\ exit_codes tr = [1%Z]
        /\ count_events is_BotStart tr = 1
        /\ exists tr0, tr = tr0 ++ [EvLoggerError e; EvProcessExit 1])
  /\ (forall b,
        createBot_returns env (BOT_TOKEN config) = Ok b ->
        start_returns env b (BOT_ALLOWED_UPDATES config) = Ok tt ->
        r = Ok RanToCompletion /\ error_logs tr = [] /\ exit_codes tr = []).
Proof.
  intros Hp. cbv zeta. polling_leaves config env Hp.
  - (* bot.start resolves *)
    split; [intros e He; discriminate He|].
    split; [intros b0 e Hb0 He; injection Hb0 as <-; rewrite Hstart in He;
            discriminate He|].
    intros b0 Hb0 _. repeat split; observe_errors; reflexivity.
  - (* bot.start rejects *)
    split; [intros e He; discriminate He|].
    split; [|intros b0 Hb0 He; injection Hb0 as <-; rewrite Hstart in He;
             discriminate He].
    intros b0 e Hb0 He. injection Hb0 as <-. rewrite Hstart in He.
    injection He as <-.
    split; [reflexivity|]. split; [observe_errors; reflexivity|].
    split; [observe_errors; reflexivity|].
    split; [count_trace; case_flags; reflexivity|].
    eexists. reflexivity.
  - (* bot.start never answers *)
    split; [intros e He; discriminate He|].
    split; [intros b0 e Hb0 He|intros b0 Hb0 He]; injection Hb0 as <-;
      rewrite Hstart in He; discriminate He.
  - (* createBot throws *)
    split; [|split; [intros b e Hb0; discriminate Hb0
                    |intros b Hb0; discriminate Hb0]].
    intros e He. injection He as <-. repeat split.
  - (* createBot never returns *)
    split; [intros e He; discriminate He|].
    split; [intros b e Hb0; discriminate Hb0|intros b Hb0; discriminate Hb0].
Qed.

(** ** The listener table over a whole run *)

(** X4.  In every run the shutdown coordinator is set up at most once: either
    [process.on] is never called and there is no closure and no listener,
    or it is called exactly twice and the table holds one listener for
    SIGINT and one for SIGTERM, both the same single closure. *)
Theorem handlers_registered_once_or_never (config : Config) (env : Env) :
  let p := snd (run config env) in
  let tr := trace (world p) in
  (count_events is_ProcessOn tr = 0 /\ listeners p = [] /\ closures p = [])
  \/ (count_events is_ProcessOn tr = 2
      /\ listeners p = [(SIGINT, 0); (SIGTERM, 0)]
      /\ length (closures p) = 1).
Proof.
  cbv zeta. run_leaves config env;
    first
      [ left; repeat split; count_trace; reflexivity
      | right; repeat split; count_trace; case_flags; reflexivity ].
Qed.

(** ** Runs without signals *)

(** X5.  When no signal arrives during the startup, the shutdown handler never
    runs: no [Shutdown] line, no [bot.stop], no listener closed, and no
    closure has its flag set. *)
Theorem no_signal_no_cleanup (config : Config) (env : Env) :
  no_signal env ->
  let p := snd (run config env) in
  let tr := trace (world p) in
  count_events is_shutdown_log tr = 0
  /\ count_events is_BotStop tr = 0
  /\ count_events is_ServerClose tr = 0
  /\ Forall (fun cl => isShuttingDown cl = false) (closures p).
Proof.
  intros [Hquiet Hnone]. cbv zeta.
  run_leaves config env; rewrite ?Hquiet, ?Hnone;
    cbn [nonempty orb app];
    (split; [count_trace; rewrite ?Hquiet, ?Hnone; reflexivity|]);
    (split; [count_trace; rewrite ?Hquiet, ?Hnone; reflexivity|]);
    (split; [count_trace; rewrite ?Hquiet, ?Hnone; reflexivity|]);
    repeat constructor.
Qed.

Lemma no_signal_witness :
  no_signal (sample_env [] quiet)
  /\ count_events is_shutdown_log
       (trace (world (snd (run (sample_config "webhook") (sample_env [] quiet)))))
     = 0.
Proof.
  assert (H : no_signal (sample_env [] quiet)).
  { split; [intros pt; reflexivity|intros b; reflexivity]. }
  split; [exact H|].
  destruct (no_signal_no_cleanup (sample_config "webhook") (sample_env [] quiet) H)
    as (Hlog & _).
  exact Hlog.
Defined.

(** ** Closing the listener *)

Lemma elem_of_burst e sigs flag evs :
  e ∈ burst_events sigs flag evs -> e = shutdown_log \/ e ∈ evs.
Proof.
  destruct (burst_events_cases sigs flag evs) as [-> | ->]; intros H.
  - inversion H.
  - apply elem_of_cons in H. exact H.
Qed.

(** Where in a trace made of known events and bursts an event can be. *)
Ltac trace_member H :=
  repeat match type of H with
    | _ ∈ _ ++ _ => apply elem_of_app in H as [H|H]
    | _ ∈ _ :: _ => apply elem_of_cons in H as [H|H]
    | _ ∈ [] => inversion H
    | _ ∈ burst_events _ _ _ => apply elem_of_burst in H as [H|H]
    end.

(** X6.  With [BOT_MODE] equal to [webhook]: whenever the listener is closed in
    a run, the handle closed is the one [serve] returned, whether its
    listening callback was called or not, and the [serve] call comes
    earlier in the trace.  So nothing is closed in a run that did not reach
    the bind, nor in one where [serve] threw. *)
Theorem listener_closed_only_after_bind (config : Config) (env : Env) :
  BOT_MODE config = "webhook" ->
  let tr := trace (world (snd (run config env))) in
  forall pre hc post,
    tr = pre ++ EvServerClose hc :: post ->
    exists srv,
      ((exists info,
          serve_returns env srv (BOT_SERVER_HOST config) (BOT_SERVER_PORT config)
          = Ok (hc, info))
       \/ (serve_returns env srv (BOT_SERVER_HOST config) (BOT_SERVER_PORT config)
           = Never
           /\ serve_handle env srv (BOT_SERVER_HOST config) (BOT_SERVER_PORT config)
              = hc))
      /\ returned_handle env srv (BOT_SERVER_HOST config) (BOT_SERVER_PORT config)
         = Some hc
      /\ EvServe srv (BOT_SERVER_HOST config) (BOT_SERVER_PORT config) ∈ pre.
Proof.
  intros Hw. cbv zeta. webhook_leaves config env Hw; intros pre hc post Heq.
  all: match type of Heq with
       | ?T = _ =>
           assert (Hin : EvServerClose hc ∈ T)
             by (rewrite Heq; apply elem_of_app; right; constructor)
       end.
  all: trace_member Hin; try discriminate Hin.
  all: injection Hin as Hhc; subst hc; exists srv.
  all: split;
         [first [ left; exists info; exact Hserve
                | right; split; [exact Hserve|reflexivity] ]|].
  all: split; [unfold returned_handle; rewrite Hserve; reflexivity|].
  all: destruct (burst_events_cases (pending_signals env AwBotInit) false [])
         as [E1|E1]; rewrite E1 in Heq.
  all: match type of Heq with
       | context [EvServe ?s ?a ?n] =>
           match type of E1 with
           | _ = [] =>
               destruct (prefix_before_first is_ServerClose
                           [EvCreateBot (BOT_TOKEN config); EvCreateServer b;
                            EvProcessOn SIGINT 0; EvProcessOn SIGTERM 0;
                            EvBotInit b; EvServe s a n]
                           _ pre (EvServerClose _) post Heq eq_refl)
                 as [k ->]; [not_blocking|]
           | _ =>
               destruct (prefix_before_first is_ServerClose
                           [EvCreateBot (BOT_TOKEN config); EvCreateServer b;
                            EvProcessOn SIGINT 0; EvProcessOn SIGTERM 0;
                            EvBotInit b; shutdown_log; EvServe s a n]
                           _ pre (EvServerClose _) post Heq eq_refl)
                 as [k ->]; [not_blocking|]
           end
       end.
  all: apply elem_of_app; left; repeat constructor.
Qed.

(** ** Signals and the listener *)

Lemma deliver_all_spent sigs p cl :
  closures p = [cl] -> isShuttingDown cl = true ->
  listeners p = [(SIGINT, 0); (SIGTERM, 0)] ->
  deliver_all sigs p = p.
Proof.
  destruct p as [cs ls w fs]. cbn [closures listeners]. intros -> Hflag ->.
  change (deliver_all sigs (registered_in fs [] cl w) = registered_in fs [] cl w).
  rewrite deliver_all_registered, Hflag. destruct sigs; reflexivity.
Qed.

Lemma deliver_all_closes_listener s rest p h :
  closures p = [{| isShuttingDown := false; cleanUp := stopServer |}] ->
  listeners p = [(SIGINT, 0); (SIGTERM, 0)] ->
  serverHandle (world p) = Some h ->
  deliver_all (s :: rest) p
  = {| closures := [{| isShuttingDown := true; cleanUp := stopServer |}];
       listeners := [(SIGINT, 0); (SIGTERM, 0)];
       world := world_append (world p) [shutdown_log; EvServerClose h];
       fatals := fatals p |}.
Proof.
  destruct p as [cs ls w fs]. cbn [closures listeners world fatals]. intros -> -> Hh.
  change (deliver_all (s :: rest)
            (registered_in fs []
               {| isShuttingDown := false; cleanUp := stopServer |} w)
          = registered_in fs [] {| isShuttingDown := true; cleanUp := stopServer |}
              (world_append w [shutdown_log; EvServerClose h])).
  rewrite (deliver_all_burst (s :: rest) fs [] false stopServer w
             [EvServerClose h] (Ok tt)).
  - unfold burst_fatals, burst_events. cbn [nonempty andb negb rejection orb].
    rewrite app_nil_r. reflexivity.
  - rewrite stopServer_run. cbn [world_append serverHandle]. rewrite Hh. reflexivity.
Qed.

(** X7.  With [BOT_MODE] equal to [webhook], when a signal arrives while
    [bot.init] is pending: the shutdown handler runs before any listener
    exists, so no listener is closed in the run; and if the startup then
    goes through, the listener is bound and stays up, because the flag is
    set and no later signal does anything. *)
Theorem signal_during_init_spends_the_latch (config : Config) (env : Env) :
  BOT_MODE config = "webhook" ->
  pending_signals env AwBotInit <> [] ->
  let r := fst (run config env) in
  let p := snd (run config env) in
  let tr := trace (world p) in
  count_events is_ServerClose tr = 0
  /\ (r = Ok RanToCompletion ->
      count_events is_Serve tr = 1
      /\ (exists h, serverHandle (world p) = Some h)
      /\ forall sigs, deliver_all sigs p = p).
Proof.
  intros Hw Hs1. cbv zeta. webhook_leaves config env Hw.
  all: destruct (pending_signals env AwBotInit) as [|s s1]; [congruence|].
  all: cbn [nonempty orb].
  all: split; [count_trace; cbn [andb negb]; case_flags; reflexivity|].
  all: intros Hr; try discriminate Hr.
  split; [count_trace; cbn [andb negb]; case_flags; reflexivity|].
  split; [exists h; reflexivity|].
  intros sigs. eapply deliver_all_spent; reflexivity.
Qed.

Lemma signal_during_init_witness :
  count_events is_ServerClose
    (trace (world (snd (run (sample_config "webhook")
                          (sample_env []
                             (fun pt => match pt with
                                        | AwBotInit => [SIGINT]
                                        | _ => []
                                        end))))))
  = 0.
Proof.
  assert (Hne : pending_signals
                  (sample_env []
                     (fun pt => match pt with AwBotInit => [SIGINT] | _ => [] end))
                  AwBotInit <> []) by discriminate.
  destruct (signal_during_init_spends_the_latch (sample_config "webhook")
              (sample_env []
                 (fun pt => match pt with AwBotInit => [SIGINT] | _ => [] end))
              eq_refl Hne) as (H & _).
  exact H.
Defined.

(** X8.  With [BOT_MODE] equal to [webhook], after a startup that went through
    with no signal arriving: the first signal delivered afterwards logs
    [Shutdown] and closes the listener, these being the only two calls it
    adds; any further signal leaves the process unchanged. *)
Theorem signal_after_webhook_startup_closes_listener (config : Config) (env : Env) :
  BOT_MODE config = "webhook" ->
  (forall pt, pending_signals env pt = []) ->
  fst (run config env) = Ok RanToCompletion ->
  let p := snd (run config env) in
  exists h,
    serverHandle (world p) = Some h
    /\ forall s rest,
         trace (world (deliver_all (s :: rest) p))
         = trace (world p) ++ [shutdown_log; EvServerClose h]
         /\ forall more,
              deliver_all more (deliver_all (s :: rest) p)
              = deliver_all (s :: rest) p.
Proof.
  intros Hw Hquiet. cbv zeta. webhook_leaves config env Hw; intros Hr;
    try discriminate Hr.
  rewrite !Hquiet. cbn [nonempty orb]. exists h. split; [reflexivity|].
  intros s rest.
  erewrite deliver_all_closes_listener; [|reflexivity..].
  split; [reflexivity|].
  intros more. eapply deliver_all_spent; reflexivity.
Qed.

Lemma signal_after_webhook_startup_witness :
  exists h,
    serverHandle (world (snd (run (sample_config "webhook") (sample_env [] quiet))))
    = Some h
    /\ count_events is_ServerClose
         (trace (world (deliver_all [SIGTERM; SIGINT]
                          (snd (run (sample_config "webhook")
                                  (sample_env [] quiet))))))
       = 1.
Proof.
  destruct (signal_after_webhook_startup_closes_listener
              (sample_config "webhook") (sample_env [] quiet)
              eq_refl (fun pt => eq_refl) eq_refl) as (h & Hh & H).
  exists h. split; [exact Hh|].
  destruct (H SIGTERM [SIGINT]) as (Htr & _). rewrite Htr.
  rewrite count_events_app. reflexivity.
Defined.

(** ** What the log lines tell *)

Lemma running_username_running username :
  running_username (EvLoggerInfo (bot_running_log username)) = Some username.
Proof.
  unfold running_username, bot_running_log.
  rewrite lookup_insert_eq, lookup_insert_ne, lookup_insert_eq by discriminate.
  reflexivity.
Qed.

Lemma omap_cons_None {A B} (f : A -> option B) x l :
  f x = None -> omap f (x :: l) = omap f l.
Proof. intros H. cbn. rewrite H. reflexivity. Qed.

Lemma omap_cons_Some {A B} (f : A -> option B) x y l :
  f x = Some y -> omap f (x :: l) = y :: omap f l.
Proof. intros H. cbn. rewrite H. reflexivity. Qed.

Lemma usernames_start_pending b hs flag :
  omap running_username (start_pending_events b hs flag) = onStart_calls hs.
Proof.
  revert flag. induction hs as [|[s|username] hs IH]; intros flag.
  - reflexivity.
  - cbn [start_pending_events]. rewrite omap_app, IH.
    destruct flag; reflexivity.
  - cbn [start_pending_events].
    rewrite (omap_cons_Some _ _ username) by apply running_username_running.
    rewrite IH. reflexivity.
Qed.

(** X9.  With [BOT_MODE] equal to [polling], once the bot is built: the
    [Bot running...] lines of the run are, in order, one per [onStart] call
    of the framework, each with the username that call was given; no other
    line of the run is a [Bot running...] line. *)
Theorem bot_running_lines_follow_onStart (config : Config) (env : Env) (b : bot) :
  BOT_MODE config = "polling" ->
  createBot_returns env (BOT_TOKEN config) = Ok b ->
  omap running_username (trace (world (snd (run config env))))
  = onStart_calls (start_pending env b).
Proof.
  intros Hp Hb. rewrite (main_polling config env Hp).
  rewrite (startPolling_created config env b Hb).
  destruct (start_returns env b (BOT_ALLOWED_UPDATES config)) as [[]|e|];
    cbn [fst snd world set_world registered_in trace world_append];
    rewrite ?omap_app, usernames_start_pending;
    rewrite !omap_cons_None by reflexivity.
  - reflexivity.
  - cbn [omap list_omap]. rewrite app_nil_r. reflexivity.
  - reflexivity.
Qed.

Lemma bot_running_lines_witness :
  omap running_username
    (trace (world (snd (run (sample_config "polling")
                          (sample_env [SIGINT] quiet)))))
  = ["giveway_bot"].
Proof.
  exact (bot_running_lines_follow_onStart (sample_config "polling")
           (sample_env [SIGINT] quiet) 7 eq_refl eq_refl).
Defined.

Lemma log_msg_server_started url :
  log_msg (EvLoggerInfo (server_started_log url)) = Some "Server started".
Proof.
  unfold log_msg, server_started_log.
  rewrite lookup_insert_ne, lookup_insert_eq by discriminate. reflexivity.
Qed.

Lemma log_msg_webhook_set url :
  log_msg (EvLoggerInfo (webhook_set_log url)) = Some "Webhook was set".
Proof.
  unfold log_msg, webhook_set_log.
  rewrite lookup_insert_ne, lookup_insert_eq by discriminate. reflexivity.
Qed.

Lemma log_messages_app t1 t2 :
  log_messages (t1 ++ t2) = log_messages t1 ++ log_messages t2.
Proof. apply omap_app. Qed.

Lemma log_messages_burst sigs flag evs :
  log_messages evs = [] ->
  log_messages (burst_events sigs flag evs)
  = if nonempty sigs && negb flag then ["Shutdown"] else [].
Proof.
  intros H. unfold burst_events.
  destruct (nonempty sigs && negb flag); [|reflexivity].
  unfold log_messages in *. cbn [omap list_omap shutdown_log log_msg].
  rewrite H. reflexivity.
Qed.

Lemma log_messages_cons e tr :
  log_messages (e :: tr)
  = match log_msg e with
    | Some m => m :: log_messages tr
    | None => log_messages tr
    end.
Proof. reflexivity. Qed.

Lemma log_messages_nil : log_messages [] = [].
Proof. reflexivity. Qed.

(** Normalise [log_messages] of a webhook trace. *)
Ltac observe_messages :=
  repeat first
    [ rewrite log_messages_app
    | rewrite log_messages_cons
    | rewrite log_messages_nil
    | rewrite log_messages_burst by reflexivity
    | rewrite log_msg_server_started
    | rewrite log_msg_webhook_set ];
  cbn [log_msg app].

(** Decide whether a message is among known ones. *)
Ltac message_member :=
  let H := fresh "H" in
  split; intros H;
  first
    [ reflexivity
    | discriminate H
    | solve [repeat constructor]
    | exfalso; trace_member H; discriminate H ].

(** X10.  With [BOT_MODE] equal to [webhook]: the line [Webhook was set] is
    logged exactly in the runs that go through, where it is the last call
    of the startup and carries [config.BOT_WEBHOOK]; the line
    [Server started] is logged exactly in the runs that go on to call
    [setWebhook]. *)
Theorem webhook_log_lines_track_progress (config : Config) (env : Env) :
  BOT_MODE config = "webhook" ->
  let r := fst (run config env) in
  let tr := trace (world (snd (run config env))) in
  ("Webhook was set" ∈ log_messages tr <-> r = Ok RanToCompletion)
  /\ ("Server started" ∈ log_messages tr <-> count_events is_SetWebhook tr = 1)
  /\ (r = Ok RanToCompletion ->
      exists tr0,
        tr = tr0 ++ [EvLoggerInfo (webhook_set_log (BOT_WEBHOOK config))]).
Proof.
  intros Hw. cbv zeta. webhook_leaves config env Hw.
  all: split; [|split].
  all: try (intros Hr;
            first [discriminate Hr | eexists; rewrite !app_assoc; reflexivity]).
  all: observe_messages; count_trace; case_flags; message_member.
Qed.

Lemma webhook_log_lines_witness :
  log_messages
    (trace (world (snd (run (sample_config "webhook") (sample_env [] quiet)))))
  = ["Server started"; "Webhook was set"]
  /\ "Webhook was set"
     ∈ log_messages
         (trace (world (snd (run (sample_config "webhook") (sample_env [] quiet))))).
Proof.
  split; [reflexivity|].
  destruct (webhook_log_lines_track_progress (sample_config "webhook")
              (sample_env [] quiet) eq_refl) as (H & _).
  apply H. reflexivity.
Defined.

(** ** Updates the [/start] feature leaves alone *)

(** X13.  Outside a private chat, or for anything but the [start] command, the
    feature does nothing of its own: no log line, no reply; it is the rest
    of the chain, run once on the same world. *)
Theorem welcomeFeature_passes_other_updates
    (env : Env) (ctx : Context) (next : M unit) (w : World) :
  chat ctx <> Some private \/ command ctx <> Some "start" ->
  welcomeFeature env ctx next w = next w.
Proof.
  intros H. unfold welcomeFeature, chatType, on_command.
  destruct (decide (chat ctx = Some private)) as [Hc|Hc]; [|reflexivity].
  destruct (decide (command ctx = Some "start")) as [Hs|Hs]; [|reflexivity].
  destruct H as [H|H]; contradiction.
Qed.

Lemma welcomeFeature_passes_witness :
  chat (sample_ctx supergroup (Some "alice")) <> Some private
  /\ welcomeFeature (sample_env [] quiet) (sample_ctx supergroup (Some "alice"))
       (call (EvReply "from the next handler") (Ok tt)) initial_world
     = (Ok tt, world_append initial_world [EvReply "from the next handler"]).
Proof.
  assert (H : chat (sample_ctx supergroup (Some "alice")) <> Some private)
    by discriminate.
  split; [exact H|].
  rewrite (welcomeFeature_passes_other_updates (sample_env [] quiet)
             (sample_ctx supergroup (Some "alice"))
             (call (EvReply "from the next handler") (Ok tt))
             initial_world (or_introl H)).
  reflexivity.
Defined.

(** ** Log messages and handler ids *)

Lemma length_append (s1 s2 : string) :
  String.length (s1 +:+ s2) = String.length s1 + String.length s2.
Proof.
  induction s1 as [|c s1 IH]; [reflexivity|].
  change (S (String.length (s1 +:+ s2)) = S (String.length s1 + String.length s2)).
  rewrite IH. reflexivity.
Qed.

Lemma append_inj_r (s1 s2 suffix : string) :
  s1 +:+ suffix = s2 +:+ suffix -> s1 = s2.
Proof.
  revert s2. induction s1 as [|c s1 IH]; intros [|c2 s2] H.
  - reflexivity.
  - apply (f_equal String.length) in H. rewrite !length_append in H.
    change (String.length suffix = S (String.length s2) + String.length suffix) in H.
    lia.
  - apply (f_equal String.length) in H. rewrite !length_append in H.
    change (S (String.length s1) + String.length suffix = String.length suffix) in H.
    lia.
  - change (String c (s1 +:+ suffix) = String c2 (s2 +:+ suffix)) in H.
    injection H as -> H. rewrite (IH s2 H). reflexivity.
Qed.

(** X14.  Two middlewares built by [logHandle] log the same message only if they
    were built from the same id, whatever the updates they see. *)
Theorem logHandle_messages_distinguish_ids (id1 id2 : string) (ctx1 ctx2 : Context) :
  logHandle_event id1 ctx1 !! "msg" = logHandle_event id2 ctx2 !! "msg" ->
  id1 = id2.
Proof.
  rewrite !logHandle_event_msg. intros H. injection H as H.
  apply (append_inj_r _ _ dquote). exact H.
Qed.

Lemma logHandle_messages_witness :
  logHandle_event "command-start" (sample_ctx private None) !! "msg"
  <> logHandle_event "unhandled-update" (sample_ctx group None) !! "msg".
Proof.
  intros H.
  pose proof (logHandle_messages_distinguish_ids _ _ _ _ H) as Hid.
  discriminate Hid.
Defined.

(** ** Chains of logging middlewares *)

(** X15.  A chain of [logHandle] middlewares logs one event per id, in the order
    of the chain, and then runs the rest of the chain once. *)
Theorem logHandle_chain_logs_in_order
    (ids : list string) (ctx : Context) (next : M unit) (w : World) :
  compose (map logHandle ids) ctx next w
  = next (world_append w
            (map (fun id => EvLoggerInfo (JObj (logHandle_event id ctx))) ids)).
Proof.
  revert w. induction ids as [|id ids IH]; intros w; cbn [map compose].
  - rewrite world_append_nil. reflexivity.
  - rewrite logHandle_runs_next. rewrite IH, world_append_app. reflexivity.
Qed.

(** ** What is left to the runtime *)

Lemma elem_of_rejection {A} (r : result A) f :
  f ∈ rejection r -> exists e, r = Throw e /\ f = UnhandledRejection e.
Proof.
  destruct r as [a|e|]; cbn [rejection]; intros H; try solve [inversion H].
  apply elem_of_cons in H as [->|H]; [eauto|inversion H].
Qed.

(** X17.  A signal that arrives before [onShutdown] finds no listener: none
    of this code runs and the signal is left to the runtime's default
    action.  After [onShutdown(cleanUp)] both signals have a listener, and
    all a delivery can leave to the runtime is the rejection of [cleanUp]:
    it does so on the delivery that fires the latch when [cleanUp] rejects,
    and never otherwise. *)
Theorem signals_before_and_after_registration
    (clean : M unit) (cs : list Closure) (w : World) (fs : list fatal)
    (s : signal) :
  let p0 := {| closures := cs; listeners := []; world := w; fatals := fs |} in
  let p1 := snd (onShutdown clean p0) in
  let answer := fst (clean (snd (logger_info (JStr "Shutdown") (world p1)))) in
  deliver s p0
  = {| closures := cs; listeners := []; world := w;
       fatals := fs ++ [DefaultAction s] |}
  /\ has_listener s p0 = false
  /\ has_listener s p1 = true
  /\ fatals p1 = fs
  /\ fatals (deliver s p1) = fs ++ rejection answer
  /\ (forall e, answer = Throw e ->
        fatals (deliver s p1) = fs ++ [UnhandledRejection e])
  /\ ((forall e, answer <> Throw e) -> fatals (deliver s p1) = fs)
  /\ forall s', fatals (deliver s' (deliver s p1)) = fatals (deliver s p1).
Proof.
  cbv zeta. rewrite onShutdown_registers. cbn [snd world registered_in].
  rewrite deliver_registered. cbn [isShuttingDown].
  split; [reflexivity|]. split; [reflexivity|].
  split; [apply has_listener_registered|]. split; [reflexivity|].
  split; [reflexivity|]. split; [|split].
  - intros e He. unfold fired_in. cbn [fatals registered_in cleanUp].
    rewrite He. reflexivity.
  - intros Hne. unfold fired_in. cbn [fatals registered_in cleanUp].
    destruct (fst (clean _)) as [a|e|]; cbn [rejection];
      [apply app_nil_r|destruct (Hne e eq_refl)|apply app_nil_r].
  - intros s'. rewrite deliver_fired. reflexivity.
Qed.

Lemma signals_before_and_after_registration_witness :
  fatals (deliver SIGTERM initial_process) = [DefaultAction SIGTERM]
  /\ fatals (deliver SIGTERM
               (snd (onShutdown (call (EvBotStop 7) (Throw "ETIMEDOUT"))
                       initial_process)))
     = [UnhandledRejection "ETIMEDOUT"].
Proof.
  destruct (signals_before_and_after_registration
              (call (EvBotStop 7) (Throw "ETIMEDOUT")) [] initial_world []
              SIGTERM) as (H0 & _ & _ & _ & _ & H1 & _).
  split.
  - change (deliver SIGTERM initial_process)
      with (deliver SIGTERM
              {| closures := []; listeners := []; world := initial_world;
                 fatals := [] |}).
    rewrite H0. reflexivity.
  - exact (H1 "ETIMEDOUT" eq_refl).
Defined.

(** X18.  What the handlers of a whole run leave to the runtime.  A webhook
    run, and a run in any mode other than [polling], leaves no unhandled
    rejection: [stopServer] never rejects.  A polling run leaves at most
    one, the rejection of [bot.stop]: exactly when a signal arrived while
    [bot.start] was pending and [bot.stop] rejected; the [bot.stop] call
    is then in the trace.  (A signal that arrives before the registration
    ends the run at the pending call, see [await_unregistered].) *)
Theorem run_leaves_only_a_rejected_stop_unhandled (config : Config) (env : Env) :
  let p := snd (run config env) in
  let tr := trace (world p) in
  (BOT_MODE config <> "polling" -> fatals p = [])
  /\ (forall b,
        BOT_MODE config = "polling" ->
        createBot_returns env (BOT_TOKEN config) = Ok b ->
        fatals p
        = if has_signal (start_pending env b)
          then rejection (stop_returns env b)
          else [])
  /\ (forall f,
        f ∈ fatals p ->
        exists b e,
          f = UnhandledRejection e /\ stop_returns env b = Throw e
          /\ EvBotStop b ∈ tr)
  /\ length (fatals p) <= 1.
Proof.
  cbv zeta. run_leaves config env.
  all: split; [try (intros _; reflexivity); intros Hne; congruence|].
  all: split;
    [intros b0 Hp0 Hb0; first [congruence | injection Hb0 as <-; reflexivity]|].
  all: try (split; [intros f Hf; inversion Hf|cbn [length]; lia]).
  all: unfold start_pending_fatals.
  all: destruct (has_signal (start_pending env b)) eqn:Hsig;
    [|split; [intros f Hf; inversion Hf|cbn [length]; lia]].
  all: pose proof (BotStop_in_pending b (start_pending env b) Hsig) as Hin.
  all: split;
    [|destruct (stop_returns env b) as [[]|e|]; cbn [rejection length]; lia].
  all: intros f Hf; apply elem_of_rejection in Hf as (e & He & ->);
    exists b, e; split; [reflexivity|]; split; [exact He|].
  all: rewrite ?elem_of_app; repeat (rewrite elem_of_cons); rewrite ?elem_of_app;
    tauto.
Qed.

Lemma run_leaves_only_a_rejected_stop_witness :
  BOT_MODE (sample_config "polling") = "polling"
  /\ fatals (snd (run (sample_config "polling") stop_rejects_env))
     = [UnhandledRejection "ETIMEDOUT"]
  /\ fst (run (sample_config "polling") stop_rejects_env) = Never.
Proof.
  split; [reflexivity|].
  destruct (run_leaves_only_a_rejected_stop_unhandled
              (sample_config "polling") stop_rejects_env) as (_ & H & _).
  split; [exact (H 7 eq_refl eq_refl)|reflexivity].
Defined.

(** ** The two modes do not mix *)

Lemma startup_steps_start_pending b hs flag :
  startup_steps (start_pending_events b hs flag) = [].
Proof.
  revert flag. induction hs as [|[s|username] hs IH]; intros flag.
  - reflexivity.
  - cbn [start_pending_events]. rewrite startup_steps_app, IH.
    destruct flag; reflexivity.
  - cbn [start_pending_events]. rewrite startup_steps_cons. apply IH.
Qed.

(** X11.  A polling run never initialises the bot on its own, never binds a
    listener, never registers a webhook and never closes a listener; a
    webhook run never starts the polling loop and never calls [bot.stop],
    not even from its shutdown handler. *)
Theorem modes_do_not_mix (config : Config) (env : Env) :
  let tr := trace (world (snd (run config env))) in
  (BOT_MODE config = "polling" ->
   startup_steps tr = [] /\ count_events is_ServerClose tr = 0)
  /\ (BOT_MODE config = "webhook" ->
      count_events is_BotStart tr = 0 /\ count_events is_BotStop tr = 0).
Proof.
  cbv zeta. split.
  - intros Hp. polling_leaves config env Hp.
    all: split; [|count_trace; case_flags; reflexivity].
    all: rewrite ?startup_steps_app, !startup_steps_cons;
      cbn [is_startup_step is_BotInit is_Serve is_SetWebhook orb];
      rewrite ?startup_steps_start_pending, ?startup_steps_nil; reflexivity.
  - intros Hw. webhook_leaves config env Hw.
    all: split; count_trace; case_flags; reflexivity.
Qed.

Lemma modes_do_not_mix_witness :
  startup_steps
    (trace (world (snd (run (sample_config "polling") (sample_env [SIGINT] quiet)))))
  = []
  /\ count_events is_BotStop
       (trace (world (snd (run (sample_config "webhook")
                               (sample_env []
                                  (fun pt => match pt with
                                             | AwStartServer => [SIGTERM]
                                             | _ => []
                                             end))))))
     = 0.
Proof.
  split.
  - destruct (modes_do_not_mix (sample_config "polling") (sample_env [SIGINT] quiet))
      as (H & _).
    destruct (H eq_refl) as (Hsteps & _). exact Hsteps.
  - destruct (modes_do_not_mix (sample_config "webhook")
                (sample_env []
                   (fun pt => match pt with AwStartServer => [SIGTERM] | _ => [] end)))
      as (_ & H).
    destruct (H eq_refl) as (_ & Hstop). exact Hstop.
Defined.

Lemma polling_startup_failure_witness :
  BOT_MODE (sample_config "polling") = "polling"
  /\ fst (run (sample_config "polling") (sample_env [SIGINT] quiet))
     = Ok RanToCompletion.
Proof.
  split; [reflexivity|].
  destruct (polling_startup_failure_exits_1 (sample_config "polling")
              (sample_env [SIGINT] quiet) eq_refl) as (_ & _ & H).
  destruct (H 7 eq_refl eq_refl) as (Hr & _). exact Hr.
Defined.

Lemma listener_closed_witness :
  exists srv,
    returned_handle
      (bind_fails_env (fun pt => match pt with AwStartServer => [SIGINT] | _ => [] end))
      srv "127.0.0.1" 3000
    = Some 9.
Proof.
  destruct (listener_closed_only_after_bind (sample_config "webhook")
              (bind_fails_env
                 (fun pt => match pt with AwStartServer => [SIGINT] | _ => [] end))
              eq_refl
              [EvCreateBot "123:abc"; EvCreateServer 7;
               EvProcessOn SIGINT 0; EvProcessOn SIGTERM 0; EvBotInit 7;
               EvServe 8 "127.0.0.1" 3000; shutdown_log]
              9
              []
              eq_refl) as (srv & _ & H & _).
  exists srv. exact H.
Defined.
